(** * Steam-table calculator: the view layer of [steam_calc]

    A shallow embedding of [steam_calc/views.py] and [steam_calc/models.py].

    - Python floats are IEEE binary64 numbers: Rocq's primitive [float].
    - The built-ins the views rely on ([float], [round], [/], [str.lower],
      [in]) are modelled in [Module Py].
    - The property engine [iapws.IAPWS97] is an external library: it is a
      parameter of the development ([Section Views]), a function from a
      two-input query to a state object or a raised exception.
    - The views run in a small state-and-exception monad whose state holds the
      template context (a dict mutated in place), the sequence of engine
      calls made so far and the rows of the [SteamQueryLog] table. *)

From Stdlib Require Import ZArith List Bool Ascii String Floats.
From stdpp Require Import gmap strings.
Import ListNotations.

Set Warnings "-register-all,-inexact-float".


Local Open Scope Z_scope.

(** ** Python built-ins *)

Module Py.

(** Exceptions, by class. [Exception] stands for every class the handlers do
    not name. *)
Inductive exn :=
| NotImplementedError (msg : string)
| ValueError (msg : string)
| TypeError (msg : string)
| AttributeError (msg : string)
| UnboundLocalError (msg : string)
| ZeroDivisionError (msg : string)
| Exception (msg : string).

(** [str(e)] *)
Definition str_of_exn (e : exn) : string :=
  match e with
  | NotImplementedError m | ValueError m | TypeError m | AttributeError m
  | UnboundLocalError m | ZeroDivisionError m | Exception m => m
  end.

(** The result of evaluating an expression: a value or a raised exception. *)
Inductive outcome (A : Type) :=
| Return (a : A)
| Raised (e : exn).
Arguments Return {A} a.
Arguments Raised {A} e.

(** Values stored in the template context. [VJson v] is the text
    [json.dumps(v)], kept structured. *)
Inductive pyval :=
| VNone
| VBool (b : bool)
| VInt (n : Z)
| VFloat (f : float)
| VStr (s : string)
| VList (l : list pyval)
| VDict (d : list (string * pyval))
| VJson (v : pyval).

Definition json_dumps (v : pyval) : pyval := VJson v.

(** [d[k]] for a dict literal. *)
Fixpoint dict_get (k : string) (d : list (string * pyval)) : option pyval :=
  match d with
  | [] => None
  | (k', v) :: d' => if String.eqb k k' then Some v else dict_get k d'
  end.

(** *** Strings (ASCII) *)

Definition lower_ascii (c : ascii) : ascii :=
  let n := nat_of_ascii c in
  if (Nat.leb 65 n && Nat.leb n 90)%bool then ascii_of_nat (n + 32) else c.

Fixpoint lower (s : string) : string :=
  match s with
  | EmptyString => EmptyString
  | String c s' => String (lower_ascii c) (lower s')
  end.

(** [sub in s] *)
Fixpoint contains (sub s : string) : bool :=
  (String.prefix sub s ||
   match s with
   | EmptyString => false
   | String _ s' => contains sub s'
   end)%bool.

Definition is_space (c : ascii) : bool :=
  let n := nat_of_ascii c in
  ((Nat.leb 9 n && Nat.leb n 13) || Nat.eqb n 32)%bool.

Definition is_digit (c : ascii) : bool :=
  let n := nat_of_ascii c in (Nat.leb 48 n && Nat.leb n 57)%bool.

Definition digit_val (c : ascii) : Z := Z.of_nat (nat_of_ascii c) - 48.

Fixpoint lstrip (l : list ascii) : list ascii :=
  match l with
  | c :: l' => if is_space c then lstrip l' else l
  | [] => []
  end.

Definition strip (l : list ascii) : list ascii :=
  rev (lstrip (rev (lstrip l))).

(** *** Floats *)

(** [float(n)] for an int [n] (round to nearest, ties to even). *)
Definition float_of_Z (n : Z) : float :=
  SF2Prim (binary_normalize prec emax n 0 false).

(** The double nearest to [(-1)^neg * n * 10^e], for [0 <= n]. *)
Definition decimal_to_float (neg : bool) (n : Z) (e : Z) : float :=
  if n =? 0 then (if neg then neg_zero else zero)
  else if 0 <=? e
  then SF2Prim (binary_normalize prec emax ((if neg then -1 else 1) * (n * 10 ^ e)) 0 neg)
  else match n, 10 ^ (- e) with
       | Zpos p, Zpos d =>
           SF2Prim (SFdiv prec emax (S754_finite neg p 0) (S754_finite false d 0))
       | _, _ => nan
       end.

(** [float(s)] for an ASCII str [s]: surrounding whitespace is stripped,
    single underscores may separate digits, then an optional sign and either
    inf / infinity / nan (any case) or a decimal literal with an optional
    exponent. Anything else raises [ValueError]; its message quotes the text
    as it is. *)

Fixpoint drop_underscores (prev : ascii) (l : list ascii) : option (list ascii) :=
  match l with
  | [] => if Ascii.eqb prev "_" then None else Some []
  | c :: l' =>
      if Ascii.eqb c "_"
      then (if is_digit prev then drop_underscores c l' else None)
      else if (Ascii.eqb prev "_" && negb (is_digit c))%bool then None
      else option_map (cons c) (drop_underscores c l')
  end.

(** The longest prefix of digits, as a number with its digit count, and the rest. *)
Fixpoint take_digits (acc : Z) (cnt : Z) (l : list ascii) : Z * Z * list ascii :=
  match l with
  | c :: l' =>
      if is_digit c then take_digits (10 * acc + digit_val c) (cnt + 1) l'
      else (acc, cnt, l)
  | [] => (acc, cnt, [])
  end.

Definition take_sign (l : list ascii) : bool * list ascii :=
  match l with
  | c :: l' =>
      if Ascii.eqb c "-" then (true, l')
      else if Ascii.eqb c "+" then (false, l')
      else (false, l)
  | [] => (false, [])
  end.

(** The exponent part: nothing, or e / E, an optional sign and digits up to
    the end of the text. *)
Definition parse_exponent (l : list ascii) : option Z :=
  match l with
  | [] => Some 0
  | c :: l' =>
      if (Ascii.eqb c "e" || Ascii.eqb c "E")%bool then
        let '(neg, l'') := take_sign l' in
        match take_digits 0 0 l'' with
        | (x, cnt, []) => if 0 <? cnt then Some (if neg then - x else x) else None
        | _ => None
        end
      else None
  end.

Definition parse_float (l : list ascii) : option float :=
  let '(neg, body) := take_sign l in
  let word := lower (string_of_list_ascii body) in
  if (String.eqb word "inf" || String.eqb word "infinity")%bool
  then Some (if neg then neg_infinity else infinity)
  else if String.eqb word "nan" then Some nan
  else
    let '(ip, icnt, r1) := take_digits 0 0 body in
    let '(fp, fcnt, r2) :=
      match r1 with
      | c :: r1' => if Ascii.eqb c "." then take_digits ip 0 r1' else (ip, 0, r1)
      | [] => (ip, 0, [])
      end in
    if 0 <? icnt + fcnt then
      match parse_exponent r2 with
      | Some x => Some (decimal_to_float neg fp (x - fcnt))
      | None => None
      end
    else None.

Definition float_of_str (s : string) : outcome float :=
  let l := strip (list_ascii_of_string s) in
  match
    match drop_underscores "0" l with
    | Some l' =>
        match l with
        | c :: _ => if Ascii.eqb c "_" then None else parse_float l'
        | [] => None
        end
    | None => None
    end
  with
  | Some f => Return f
  | None => Raised (ValueError ("could not convert string to float: '" +:+ s +:+ "'"))
  end.

(** [round(x, ndigits)] for a float [x] and [0 <= ndigits]: the double
    nearest to the decimal obtained by rounding the exact value of [x] to
    [ndigits] places, ties to even; infinities, nan and zeros are returned
    unchanged. *)
Definition round_half_even (num den : Z) : Z :=
  let q := num / den in
  let r := num mod den in
  match 2 * r ?= den with
  | Lt => q
  | Gt => q + 1
  | Eq => if Z.even q then q else q + 1
  end.

Definition round (x : float) (ndigits : Z) : float :=
  match Prim2SF x with
  | S754_finite neg m e =>
      if 0 <=? e then x
      else
        decimal_to_float neg
          (round_half_even (Zpos m * 10 ^ ndigits) (2 ^ (- e))) (- ndigits)
  | _ => x
  end.

(** [a / b] on floats raises on a zero divisor. *)
Definition truediv (a b : float) : outcome float :=
  if PrimFloat.eqb b 0 then Raised (ZeroDivisionError "float division by zero")
  else Return (a / b)%float.

End Py.

(** ** The property engine: [iapws.IAPWS97] (external library) *)

Module IAPWS.

(** A call [IAPWS97(P=.., T=..)] and the like, by its keyword arguments. *)
Inductive query :=
| PT (P T : float)
| Px (P x : float)
| Tx (T x : float)
| Ps (P s : float)
| Ph (P h : float).

(** The attributes the views read from a computed state. Only [x] is tested
    with [hasattr] before it is read, so it is the one optional attribute. *)
Record state := {
  P : float;
  T : float;
  h : float;
  s : float;
  v : float;
  phase : string;
  x : option float
}.

End IAPWS.

(** ** [steam_calc/models.py] *)

Module Models.

Record SteamQueryLog := {
  pressure : float;
  temperature : float;
  timestamp : Z;
  is_valid : bool
}.

End Models.

(** ** The request and the response (Django) *)

Record HttpRequest := {
  method : string;
  POST : gmap string string
}.

(** [render(request, template, context)] *)
Record HttpResponse := {
  template : string;
  data : gmap string Py.pyval
}.

(** ** The effects of a view *)

Import Py.

Record world := {
  context : gmap string pyval;
  engine_calls : list IAPWS.query;
  query_log : list Models.SteamQueryLog
}.

Definition M (A : Type) : Type := world -> outcome A * world.

Definition ret {A} (a : A) : M A := fun w => (Return a, w).

Definition lift {A} (o : outcome A) : M A := fun w => (o, w).

Definition bind {A B} (m : M A) (k : A -> M B) : M B :=
  fun w =>
    match m w with
    | (Return a, w') => k a w'
    | (Raised e, w') => (Raised e, w')
    end.

(** [try: m except e: h e]; what [m] did to the state before it raised stays. *)
Definition try_except {A} (m : M A) (h : exn -> M A) : M A :=
  fun w =>
    match m w with
    | (Return a, w') => (Return a, w')
    | (Raised e, w') => h e w'
    end.

Declare Scope py_scope.
Delimit Scope py_scope with py.
Notation "x <- m ;; k" := (bind m (fun x => k))
  (at level 100, m at next level, right associativity) : py_scope.
Notation "m ;; k" := (bind m (fun _ => k))
  (at level 100, right associativity) : py_scope.
Local Open Scope py_scope.

Fixpoint for_each {A S} (l : list A) (body : S -> A -> M S) (acc : S) : M S :=
  match l with
  | [] => ret acc
  | a :: l' => acc' <- body acc a;; for_each l' body acc'
  end.

(** [context = {}] *)
Definition new_context : M unit :=
  fun w => (Return tt, {| context := ∅; engine_calls := engine_calls w;
                          query_log := query_log w |}).

(** [context[k] = v] *)
Definition context_set (k : string) (v : pyval) : M unit :=
  fun w => (Return tt, {| context := <[k := v]> (context w);
                          engine_calls := engine_calls w;
                          query_log := query_log w |}).

(** [context.update({...})]: the entries are stored in order. *)
Definition dict_update (d : list (string * pyval)) (c : gmap string pyval)
  : gmap string pyval :=
  fold_left (fun c kv => <[fst kv := snd kv]> c) d c.

Definition context_update (d : list (string * pyval)) : M unit :=
  fun w => (Return tt, {| context := dict_update d (context w);
                          engine_calls := engine_calls w;
                          query_log := query_log w |}).

Definition get_context : M (gmap string pyval) :=
  fun w => (Return (context w), w).

(** [range(start, stop, step)] for a positive step. *)
Definition range (start stop step : Z) : list Z :=
  map (fun i => start + Z.of_nat i * step)
      (seq 0 (Z.to_nat ((stop - start + step - 1) / step))).

(** [float(v)] where [v] is a form field or [None]. *)
Definition float_of_field (v : option string) : outcome float :=
  match v with
  | Some s => float_of_str s
  | None =>
      Raised (TypeError "float() argument must be a string or a real number, not 'NoneType'")
  end.

(** [float(request.POST.get(k, d))] with a numeric default [d]. *)
Definition float_of_field_or (v : option string) (d : float) : outcome float :=
  match v with
  | Some s => float_of_str s
  | None => Return d
  end.

(** [v == lit] for a form field [v] that may be [None]. *)
Definition field_is (v : option string) (lit : string) : bool :=
  match v with
  | Some s => String.eqb s lit
  | None => false
  end.

Definition val_of_field (v : option string) : pyval :=
  match v with
  | Some s => VStr s
  | None => VNone
  end.

(** Reading a local name that no branch has bound. *)
Definition read_local {A} (name : string) (v : option A) : outcome A :=
  match v with
  | Some a => Return a
  | None =>
      Raised (UnboundLocalError
                ("cannot access local variable '" +:+ name
                 +:+ "' where it is not associated with a value"))
  end.

(** [st.x] *)
Definition getattr_x (st : IAPWS.state) : outcome float :=
  match IAPWS.x st with
  | Some q => Return q
  | None => Raised (AttributeError "'IAPWS97' object has no attribute 'x'")
  end.

(** ** [steam_calc/views.py] *)

Section Views.

(** The property engine. *)
Variable IAPWS97 : IAPWS.query -> outcome IAPWS.state.

(** A call of the engine is recorded, whether it returns or raises. *)
Definition engine (q : IAPWS.query) : M IAPWS.state :=
  fun w => (IAPWS97 q, {| context := context w;
                          engine_calls := engine_calls w ++ [q];
                          query_log := query_log w |}).

Definition point (xs : float) (y : pyval) : pyval :=
  VDict [("x", VFloat xs); ("y", y)].

(** The body of the sweep in [generate_saturation_dome]; [lines] are
    [liquid_line] and [vapor_line]. *)
Definition dome_step (lines : list pyval * list pyval) (t_celsius : Z)
  : M (list pyval * list pyval) :=
  let t_kelvin := (float_of_Z t_celsius + 273.15)%float in
  try_except
    (sat_liquid <- engine (IAPWS.Tx t_kelvin 0);;
     sat_vapor <- engine (IAPWS.Tx t_kelvin 1);;
     ret (fst lines ++ [point (IAPWS.s sat_liquid) (VInt t_celsius)],
          snd lines ++ [point (IAPWS.s sat_vapor) (VInt t_celsius)]))
    (fun _ => ret lines).

Definition critical_point : pyval := point 4.406 (VFloat 373.946).

Definition generate_saturation_dome : M (list pyval * list pyval) :=
  lines <- for_each (range 0 374 10) dome_step ([], []);;
  ret (fst lines ++ [critical_point], snd lines ++ [critical_point]).

(** Lines 59-65: the pressure in MPa, or nothing when no branch binds [p_mpa]. *)
Definition pressure_to_mpa (p_unit : option string) (p_val : float) : option float :=
  if field_is p_unit "bar" then Some (p_val / 10)%float
  else if field_is p_unit "pa" then Some (p_val / 1000000)%float
  else if field_is p_unit "atm" then Some (p_val * 0.101325)%float
  else None.

(** Lines 67-71: the temperature in kelvin. *)
Definition temperature_to_kelvin (t_unit : option string) (t_val : float) : float :=
  if field_is t_unit "c" then (t_val + 273.15)%float else t_val.

(** The dict of lines 100-105. *)
Definition intermediate_row (ix : float) (int_steam : IAPWS.state) : pyval :=
  VDict [("x", VFloat ix);
         ("h", VFloat (round (IAPWS.h int_steam) 2));
         ("s", VFloat (round (IAPWS.s int_steam) 4));
         ("v", VFloat (round (IAPWS.v int_steam) 5))].

(** The body of the loop of lines 98-105. *)
Definition intermediate_step (p_mpa : float) (intermediate_data : list pyval)
    (ix : float) : M (list pyval) :=
  int_steam <- engine (IAPWS.Px p_mpa ix);;
  ret (intermediate_data ++ [intermediate_row ix int_steam]).

(** The [except] clauses of [handle_state_point]. *)
Definition state_point_except (e : exn) : M unit :=
  match e with
  | NotImplementedError _ =>
      if contains "out of bound" (lower (str_of_exn e))
      then context_set "error" (VStr "The provided temperature and pressure exceed the valid limits of the IAPWS-97 steam tables. Please enter physically realistic values.")
      else context_set "error" (VStr ("Thermodynamic error: " +:+ str_of_exn e))
  | ValueError _ => context_set "error" (VStr ("Input Error: " +:+ str_of_exn e))
  | _ => context_set "error" (VStr "An unexpected calculation error occurred. Verify your inputs.")
  end.

(** The dict of lines 76-85. *)
Definition state_point_context (p_val t_val : float) (p_unit t_unit : option string)
    (t_k : float) (steam : IAPWS.state) : list (string * pyval) :=
  [("success", VBool true);
   ("p", VFloat p_val); ("t", VFloat t_val);
   ("p_unit", val_of_field p_unit); ("t_unit", val_of_field t_unit);
   ("h", VFloat (round (IAPWS.h steam) 2));
   ("s", VFloat (round (IAPWS.s steam) 4));
   ("v", VFloat (round (IAPWS.v steam) 5));
   ("point_s", VFloat (IAPWS.s steam));
   ("point_t", VFloat (t_k - 273.15))].

(** The [try] suite of [handle_state_point]. *)
Definition state_point_try (p_input t_input p_unit t_unit : option string) : M unit :=
    (p_val <- lift (float_of_field p_input);;
     t_val <- lift (float_of_field t_input);;
     let p_mpa := pressure_to_mpa p_unit p_val in
     let t_k := temperature_to_kelvin t_unit t_val in
     p_mpa <- lift (read_local "p_mpa" p_mpa);;
     steam <- engine (IAPWS.PT p_mpa t_k);;
     context_update (state_point_context p_val t_val p_unit t_unit t_k steam);;
     if String.eqb (IAPWS.phase steam) "Liquid" then
       context_set "state" (VStr "Compressed Liquid");;
       context_set "x" (VStr "0")
     else if String.eqb (IAPWS.phase steam) "Gas" then
       context_set "state" (VStr "Superheated Steam");;
       context_set "x" (VStr "1")
     else if String.eqb (IAPWS.phase steam) "Two-phase" then
       context_set "state" (VStr "Wet Steam");;
       steam_x <- lift (getattr_x steam);;
       context_set "x" (VFloat (round steam_x 4));;
       intermediate_data <-
         for_each [0.2; 0.4; 0.6; 0.8]%float (intermediate_step p_mpa) [];;
       context_set "intermediate_data" (VList intermediate_data)
     else ret tt).

Definition handle_state_point (request : HttpRequest) : M unit :=
  let p_input := POST request !! "pressure" in
  let t_input := POST request !! "temperature" in
  let p_unit := POST request !! "p_unit" in
  let t_unit := POST request !! "t_unit" in
  try_except (state_point_try p_input t_input p_unit t_unit) state_point_except.

(** [round(v, n)] for a number that is an int or a float. *)
Definition round_number (v : pyval) (n : Z) : pyval :=
  match v with
  | VFloat f => VFloat (round f n)
  | _ => v
  end.

Definition cycle_point (st : IAPWS.state) (label : string) : pyval :=
  VDict [("x", VFloat (IAPWS.s st));
         ("y", VFloat (IAPWS.T st - 273.15));
         ("label", VStr label)].

(** The entries of a state's table row that every state shares. *)
Definition state_row (st : IAPWS.state) (x phase : pyval) : pyval :=
  VDict [("p", VFloat (round (IAPWS.P st * 10) 3));
         ("T", VFloat (round (IAPWS.T st - 273.15) 2));
         ("h", VFloat (round (IAPWS.h st) 2));
         ("s", VFloat (round (IAPWS.s st) 4));
         ("x", x); ("phase", phase)].

(** [round(st.x, 4) if hasattr(st, 'x') else 'N/A'] *)
Definition quality_or_na (st : IAPWS.state) : pyval :=
  match IAPWS.x st with
  | Some q => VFloat (round q 4)
  | None => VStr "N/A"
  end.

(** The [except] clauses of [handle_rankine_cycle]. *)
Definition rankine_except (e : exn) : M unit :=
  match e with
  | NotImplementedError _ =>
      if contains "out of bound" (lower (str_of_exn e))
      then context_set "error" (VStr "The provided parameters exceed the valid limits of the IAPWS-97 formulations. Please verify that your Boiler Temperature isn't impossibly high or low.")
      else context_set "error" (VStr ("Thermodynamic error: " +:+ str_of_exn e))
  | ValueError _ => context_set "error" (VStr (str_of_exn e))
  | _ => context_set "error" (VStr "An unexpected error occurred. Please ensure all inputs are valid numbers.")
  end.

Definition physics_violation : string :=
  "Physics Violation: Boiler pressure must be strictly greater than Condenser pressure.".

Definition invalid_efficiency : string :=
  "Efficiencies must be between 1% and 100%.".

(** The dict of lines 182-220, with [cycle_points] of lines 174-180; [x3] is
    the quality entry of State 3. *)
Definition rankine_context (p_low p_high t_high pump_eff turbine_eff : float)
    (state1 state2 state3 state4 : IAPWS.state) (x3 : pyval)
    (w_pump q_in w_turbine w_net : float) (efficiency : pyval) (carnot_eff : float)
  : list (string * pyval) :=
  let cycle_points :=
    [cycle_point state1 "State 1"; cycle_point state2 "State 2";
     cycle_point state3 "State 3"; cycle_point state4 "State 4";
     cycle_point state1 "State 1"] in
  [("success", VBool true);
   ("rankine_cycle", VBool true);
   ("cycle_points", json_dumps (VList cycle_points));
   ("p_low", VFloat p_low);
   ("p_high", VFloat p_high);
   ("t_high", VFloat t_high);
   ("pump_eff", VFloat (pump_eff * 100));
   ("turbine_eff", VFloat (turbine_eff * 100));
   ("state1", state_row state1 (VStr "0 (sat. liquid)") (VStr "Saturated Liquid"));
   ("state2", state_row state2 (quality_or_na state2) (VStr (IAPWS.phase state2)));
   ("state3", state_row state3 x3 (VStr "Superheated Steam"));
   ("state4", state_row state4 (quality_or_na state4) (VStr (IAPWS.phase state4)));
   ("w_pump", VFloat (round w_pump 2));
   ("q_in", VFloat (round q_in 2));
   ("w_turbine", VFloat (round w_turbine 2));
   ("w_net", VFloat (round w_net 2));
   ("efficiency", round_number efficiency 2);
   ("carnot_eff", VFloat (round carnot_eff 2))].

(** The [try] suite of [handle_rankine_cycle]. *)
Definition rankine_cycle_try (request : HttpRequest) : M unit :=
    (p_low <- lift (float_of_field_or (POST request !! "p_cond") 0.05);;
     p_high <- lift (float_of_field_or (POST request !! "p_boiler") 10);;
     t_high <- lift (float_of_field_or (POST request !! "t_boiler") 450);;
     pump_pct <- lift (float_of_field_or (POST request !! "pump_eff") 85);;
     let pump_eff := (pump_pct / 100)%float in
     turbine_pct <- lift (float_of_field_or (POST request !! "turbine_eff") 85);;
     let turbine_eff := (turbine_pct / 100)%float in
     (if (p_high <=? p_low)%float
      then lift (Raised (ValueError physics_violation)) else ret tt);;
     (if ((pump_eff <=? 0)%float || (turbine_eff <=? 0)%float
          || (1 <? pump_eff)%float || (1 <? turbine_eff)%float)%bool
      then lift (Raised (ValueError invalid_efficiency)) else ret tt);;
     let p_low_mpa := (p_low / 10)%float in
     let p_high_mpa := (p_high / 10)%float in
     let t_high_k := (t_high + 273.15)%float in
     state1 <- engine (IAPWS.Px p_low_mpa 0);;
     state2s <- engine (IAPWS.Ps p_high_mpa (IAPWS.s state1));;
     dh2 <- lift (truediv (IAPWS.h state2s - IAPWS.h state1) pump_eff);;
     let h2_actual := (IAPWS.h state1 + dh2)%float in
     state2 <- engine (IAPWS.Ph p_high_mpa h2_actual);;
     state3 <- engine (IAPWS.PT p_high_mpa t_high_k);;
     state4s <- engine (IAPWS.Ps p_low_mpa (IAPWS.s state3));;
     let h4_actual :=
       (IAPWS.h state3 - (IAPWS.h state3 - IAPWS.h state4s) * turbine_eff)%float in
     state4 <- engine (IAPWS.Ph p_low_mpa h4_actual);;
     let w_pump := (IAPWS.h state2 - IAPWS.h state1)%float in
     let q_in := (IAPWS.h state3 - IAPWS.h state2)%float in
     let w_turbine := (IAPWS.h state3 - IAPWS.h state4)%float in
     let w_net := (w_turbine - w_pump)%float in
     efficiency <-
       (if (0 <? q_in)%float
        then r <- lift (truediv w_net q_in);; ret (VFloat (r * 100))
        else ret (VInt 0));;
     let t_high_abs := (t_high + 273.15)%float in
     let t_low_abs := IAPWS.T state1 in
     ratio <- lift (truediv t_low_abs t_high_abs);;
     let carnot_eff := ((1 - ratio) * 100)%float in
     x3 <-
       (if String.eqb (IAPWS.phase state3) "Gas"
        then ret (VStr "1 (sat. vapor)")
        else q <- lift (getattr_x state3);; ret (VFloat (round q 4)));;
     context_update
       (rankine_context p_low p_high t_high pump_eff turbine_eff
          state1 state2 state3 state4 x3
          w_pump q_in w_turbine w_net efficiency carnot_eff)).

Definition handle_rankine_cycle (request : HttpRequest) : M unit :=
  try_except (rankine_cycle_try request) rankine_except.

Definition steam_calculator (request : HttpRequest) : M HttpResponse :=
  new_context;;
  lines <- generate_saturation_dome;;
  context_set "liquid_line" (json_dumps (VList (fst lines)));;
  context_set "vapor_line" (json_dumps (VList (snd lines)));;
  (if String.eqb (method request) "POST" then
     let mode := default "state_point" (POST request !! "mode") in
     if String.eqb mode "rankine_cycle" then
       context_set "active_mode" (VStr "rankine");;
       handle_rankine_cycle request
     else
       context_set "active_mode" (VStr "state");;
       handle_state_point request
   else ret tt);;
  context <- get_context;;
  ret {| template := "index.html"; data := context |}.

End Views.

(** ** What the views are expected to do, in terms of the engine *)

Section Expected.

Variable IAPWS97 : IAPWS.query -> outcome IAPWS.state.

(** The state a lookup resolves to, if the engine returns one. *)
Definition resolved (q : IAPWS.query) : option IAPWS.state :=
  match IAPWS97 q with
  | Return st => Some st
  | Raised _ => None
  end.

(** The saturated-liquid and saturated-vapor points of one sweep
    temperature: both or, when either lookup fails, none. *)
Definition dome_sample (t_celsius : Z) : option (pyval * pyval) :=
  let t_kelvin := (float_of_Z t_celsius + 273.15)%float in
  sat_liquid ← resolved (IAPWS.Tx t_kelvin 0);
  sat_vapor ← resolved (IAPWS.Tx t_kelvin 1);
  Some (VDict [("x", VFloat (IAPWS.s sat_liquid)); ("y", VInt t_celsius)],
        VDict [("x", VFloat (IAPWS.s sat_vapor)); ("y", VInt t_celsius)]).

(** Whether both lookups of a sweep temperature return. *)
Definition dome_resolves (t_celsius : Z) : bool :=
  let t_kelvin := (float_of_Z t_celsius + 273.15)%float in
  match IAPWS97 (IAPWS.Tx t_kelvin 0), IAPWS97 (IAPWS.Tx t_kelvin 1) with
  | Return _, Return _ => true
  | _, _ => false
  end.

(** The lookups of one sweep temperature: quality 0, then quality 1 unless
    the first already failed. *)
Definition dome_queries (t_celsius : Z) : list IAPWS.query :=
  let t_kelvin := (float_of_Z t_celsius + 273.15)%float in
  IAPWS.Tx t_kelvin 0 ::
  match resolved (IAPWS.Tx t_kelvin 0) with
  | Some _ => [IAPWS.Tx t_kelvin 1]
  | None => []
  end.

(** The six states of a cycle. *)
Record cycle := {
  state1 : IAPWS.state;
  state2s : IAPWS.state;
  state2 : IAPWS.state;
  state3 : IAPWS.state;
  state4s : IAPWS.state;
  state4 : IAPWS.state
}.

(** The cycle in the order 1, 2s, 2, 3, 4s, 4, each state resolved from the
    ones before it; pressures in MPa, the boiler temperature in kelvin, the
    efficiencies as fractions. *)
Definition cycle_states (p_cond p_boiler t_boiler eff_pump eff_turbine : float)
  : option cycle :=
  st1 ← resolved (IAPWS.Px p_cond 0);
  st2s ← resolved (IAPWS.Ps p_boiler (IAPWS.s st1));
  st2 ← resolved
    (IAPWS.Ph p_boiler (IAPWS.h st1 + (IAPWS.h st2s - IAPWS.h st1) / eff_pump));
  st3 ← resolved (IAPWS.PT p_boiler t_boiler);
  st4s ← resolved (IAPWS.Ps p_cond (IAPWS.s st3));
  st4 ← resolved
    (IAPWS.Ph p_cond (IAPWS.h st3 - (IAPWS.h st3 - IAPWS.h st4s) * eff_turbine));
  Some {| state1 := st1; state2s := st2s; state2 := st2;
          state3 := st3; state4s := st4s; state4 := st4 |}.

(** The lookups of a cycle, in order; the first one that fails is the last. *)
Definition cycle_schedule (p_cond p_boiler t_boiler eff_pump eff_turbine : float)
  : list IAPWS.query :=
  let q1 := IAPWS.Px p_cond 0 in
  q1 ::
  match resolved q1 with
  | None => []
  | Some st1 =>
  let q2s := IAPWS.Ps p_boiler (IAPWS.s st1) in
  q2s ::
  match resolved q2s with
  | None => []
  | Some st2s =>
  let q2 :=
    IAPWS.Ph p_boiler (IAPWS.h st1 + (IAPWS.h st2s - IAPWS.h st1) / eff_pump) in
  q2 ::
  match resolved q2 with
  | None => []
  | Some st2 =>
  let q3 := IAPWS.PT p_boiler t_boiler in
  q3 ::
  match resolved q3 with
  | None => []
  | Some st3 =>
  let q4s := IAPWS.Ps p_cond (IAPWS.s st3) in
  q4s ::
  match resolved q4s with
  | None => []
  | Some st4s =>
      [IAPWS.Ph p_cond
         (IAPWS.h st3 - (IAPWS.h st3 - IAPWS.h st4s) * eff_turbine)]
  end end end end end.

End Expected.

(** The form fields of a state-point request read as numbers (lines 56-57). *)
Definition state_point_inputs (request : HttpRequest) (p_val t_val : float) : Prop :=
  float_of_field (POST request !! "pressure") = Return p_val
  /\ float_of_field (POST request !! "temperature") = Return t_val.

(** The form fields of a Rankine request read as numbers (lines 123-127);
    the efficiencies are still percentages. *)
Definition rankine_inputs (request : HttpRequest)
    (p_low p_high t_high pump_pct turbine_pct : float) : Prop :=
  float_of_field_or (POST request !! "p_cond") 0.05 = Return p_low
  /\ float_of_field_or (POST request !! "p_boiler") 10 = Return p_high
  /\ float_of_field_or (POST request !! "t_boiler") 450 = Return t_high
  /\ float_of_field_or (POST request !! "pump_eff") 85 = Return pump_pct
  /\ float_of_field_or (POST request !! "turbine_eff") 85 = Return turbine_pct.

(** A run without an error message in the context. *)
Definition no_error (w : world) : Prop := context w !! "error" = None.

(** A computation that leaves the [SteamQueryLog] table as it found it. *)
Definition preserves_log {A} (m : M A) : Prop :=
  forall w, query_log (snd (m w)) = query_log w.

(** ** A stand-in engine for concrete runs

    [demo_engine] answers every query with a state that carries all
    attributes, [x] included, as the [iapws] package does; [bare_engine]
    differs in leaving [x] off its single-phase states. Neither is steam
    physics: they only fix what the external library returns in the
    examples below. *)

Definition demo_state (with_x : bool) (q : IAPWS.query) : IAPWS.state :=
  match q with
  | IAPWS.PT p t =>
      if (t <? 373.15)%float then
        {| IAPWS.P := p; IAPWS.T := t; IAPWS.h := 420; IAPWS.s := 1.3;
           IAPWS.v := 0.001; IAPWS.phase := "Liquid";
           IAPWS.x := if with_x then Some 0%float else None |}
      else if (t <? 500)%float then
        {| IAPWS.P := p; IAPWS.T := t; IAPWS.h := 1200; IAPWS.s := 3;
           IAPWS.v := 0.05; IAPWS.phase := "Two-phase";
           IAPWS.x := Some 0.123456%float |}
      else
        {| IAPWS.P := p; IAPWS.T := t; IAPWS.h := 3300; IAPWS.s := 6.5;
           IAPWS.v := 0.03; IAPWS.phase := "Gas";
           IAPWS.x := if with_x then Some 1%float else None |}
  | IAPWS.Px p q =>
      {| IAPWS.P := p; IAPWS.T := 306; IAPWS.h := 140 + 2400 * q;
         IAPWS.s := 0.5 + 8 * q; IAPWS.v := 0.001 + 28 * q;
         IAPWS.phase := "Two-phase"; IAPWS.x := Some q |}
  | IAPWS.Tx t q =>
      {| IAPWS.P := 0.1; IAPWS.T := t; IAPWS.h := 140 + 2400 * q;
         IAPWS.s := 0.5 + 8 * q; IAPWS.v := 0.001 + 28 * q;
         IAPWS.phase := "Two-phase"; IAPWS.x := Some q |}
  | IAPWS.Ps p s =>
      {| IAPWS.P := p; IAPWS.T := 310; IAPWS.h := 150 + 300 * (s - 0.5);
         IAPWS.s := s; IAPWS.v := 0.002; IAPWS.phase := "Two-phase";
         IAPWS.x := Some 0.75%float |}
  | IAPWS.Ph p h =>
      if (h <? 1000)%float then
        {| IAPWS.P := p; IAPWS.T := 307; IAPWS.h := h; IAPWS.s := 0.52;
           IAPWS.v := 0.001; IAPWS.phase := "Liquid";
           IAPWS.x := if with_x then Some 0%float else None |}
      else
        {| IAPWS.P := p; IAPWS.T := 306; IAPWS.h := h; IAPWS.s := 7;
           IAPWS.v := 20; IAPWS.phase := "Two-phase";
           IAPWS.x := Some 0.9%float |}
  end.

Definition demo_engine (q : IAPWS.query) : outcome IAPWS.state :=
  Return (demo_state true q).

Definition bare_engine (q : IAPWS.query) : outcome IAPWS.state :=
  Return (demo_state false q).

(** An engine that is out of range above 600 K and below 280 K. *)
Definition bounded_engine (q : IAPWS.query) : outcome IAPWS.state :=
  match q with
  | IAPWS.PT _ t | IAPWS.Tx t _ =>
      if ((600 <? t) || (t <? 280))%float
      then Raised (NotImplementedError "Incoming out of bound")
      else Return (demo_state true q)
  | _ => Return (demo_state true q)
  end.

Definition empty_world : world :=
  {| context := ∅; engine_calls := []; query_log := [] |}.

Definition post (fields : list (string * string)) : HttpRequest :=
  {| method := "POST"; POST := list_to_map fields |}.

(** Requests used in the examples. *)

Definition rankine_request (p_cond p_boiler t_boiler pump_eff turbine_eff : string)
  : HttpRequest :=
  post [("mode", "rankine_cycle"); ("p_cond", p_cond); ("p_boiler", p_boiler);
        ("t_boiler", t_boiler); ("pump_eff", pump_eff);
        ("turbine_eff", turbine_eff)].

Definition state_point_request (pressure temperature p_unit t_unit : string)
  : HttpRequest :=
  post [("mode", "state_point"); ("pressure", pressure);
        ("temperature", temperature); ("p_unit", p_unit); ("t_unit", t_unit)].

(** ** Context keys and the worlds of a request *)

(** The keys [handle_rankine_cycle] stores in the context (lines 182-230). *)
Definition rankine_keys : list string :=
  ["error"; "success"; "rankine_cycle"; "cycle_points"; "p_low"; "p_high";
   "t_high"; "pump_eff"; "turbine_eff"; "state1"; "state2"; "state3";
   "state4"; "w_pump"; "q_in"; "w_turbine"; "w_net"; "efficiency";
   "carnot_eff"].

(** The keys [handle_state_point] stores in the context (lines 76-116). *)
Definition state_point_keys : list string :=
  ["error"; "success"; "p"; "t"; "p_unit"; "t_unit"; "h"; "s"; "v";
   "point_s"; "point_t"; "state"; "x"; "intermediate_data"].

(** The temperature entry of a plotted point. *)
Definition point_y (p : pyval) : option pyval :=
  match p with
  | VDict d => dict_get "y" d
  | _ => None
  end.

(** A computation that stores nothing in the context outside [keys]. *)
Definition writes_only {A} (keys : list string) (m : M A) : Prop :=
  forall w k, ~ In k keys -> context (snd (m w)) !! k = context w !! k.

(** The world after [context['active_mode'] = mode]. *)
Definition with_active_mode (mode : string) (w : world) : world :=
  {| context := <["active_mode" := VStr mode]> (context w);
     engine_calls := engine_calls w; query_log := query_log w |}.

Section ViewOutcome.

Variable IAPWS97 : IAPWS.query -> outcome IAPWS.state.

(** The world after lines 29-34 of [steam_calculator]: a fresh context with
    the two dome lines, and the lookups of the sweep. *)
Definition dome_world (w : world) : world :=
  {| context :=
       <["vapor_line" :=
           json_dumps (VList (map snd (omap (dome_sample IAPWS97) (range 0 374 10))
                              ++ [critical_point]))]>
         (<["liquid_line" :=
              json_dumps (VList (map fst (omap (dome_sample IAPWS97) (range 0 374 10))
                                 ++ [critical_point]))]> ∅);
     engine_calls :=
       engine_calls w ++ concat (map (dome_queries IAPWS97) (range 0 374 10));
     query_log := query_log w |}.

(** The world at the end of [steam_calculator]: lines 36-44 on [dome_world]. *)
Definition view_world (request : HttpRequest) (w : world) : world :=
  if String.eqb (method request) "POST" then
    if String.eqb (default "state_point" (POST request !! "mode")) "rankine_cycle"
    then snd (handle_rankine_cycle IAPWS97 request
                (with_active_mode "rankine" (dome_world w)))
    else snd (handle_state_point IAPWS97 request
                (with_active_mode "state" (dome_world w)))
  else dome_world w.

End ViewOutcome.

(** More stand-in engines: one whose phase tag is none of the three the view
    tests, and one that fails on qualities above 0.5. *)

Definition supercritical_engine (q : IAPWS.query) : outcome IAPWS.state :=
  Return {| IAPWS.P := 25; IAPWS.T := 700; IAPWS.h := 2000; IAPWS.s := 4.1;
            IAPWS.v := 0.004; IAPWS.phase := "Supercritical fluid";
            IAPWS.x := None |}.

Definition flaky_engine (q : IAPWS.query) : outcome IAPWS.state :=
  match q with
  | IAPWS.Px _ x =>
      if (0.5 <? x)%float then Raised (Exception "no convergence")
      else Return (demo_state true q)
  | _ => Return (demo_state true q)
  end.

Definition get_request : HttpRequest := {| method := "GET"; POST := ∅ |}.

(** ** Text whose [repr] is the text between single quotes *)

(** Printable ASCII other than the single quote and the backslash: for a
    string of such characters [repr(s)], which [float] puts in the message of
    its ValueError, is [s] between single quotes. *)
Definition plain_char (c : ascii) : bool :=
  let n := nat_of_ascii c in
  (Nat.leb 32 n && Nat.leb n 126 && negb (Nat.eqb n 39) && negb (Nat.eqb n 92))%bool.

Definition plain_text (s : string) : bool :=
  forallb plain_char (list_ascii_of_string s).

(** Every field of [keys] that the form holds is plain text. *)
Definition plain_fields (request : HttpRequest) (keys : list string) : Prop :=
  forall k s, In k keys -> POST request !! k = Some s -> plain_text s = true.

(** * Properties *)

(** ** Float comparisons *)

Lemma Prim2SF_zero : Prim2SF 0 = S754_zero false.
Proof. reflexivity. Qed.

Lemma leb_zero_false_nonzero (b : float) :
  (b <=? 0)%float = false -> (b =? 0)%float = false.
Proof.
  rewrite FloatAxioms.leb_spec, FloatAxioms.eqb_spec, Prim2SF_zero.
  unfold SFleb, SFeqb.
  destruct (SFcompare (Prim2SF b) (S754_zero false)) as [[]|]; congruence.
Qed.

Lemma ltb_zero_true_nonzero (b : float) :
  (0 <? b)%float = true -> (b =? 0)%float = false.
Proof.
  rewrite FloatAxioms.ltb_spec, FloatAxioms.eqb_spec, Prim2SF_zero.
  unfold SFltb, SFeqb.
  destruct (Prim2SF b) as [[]|[]| |[] m e]; simpl; congruence.
Qed.

Lemma leb_zero_true_not_pos (b : float) :
  (b <=? 0)%float = true -> (0 <? b)%float = false.
Proof.
  rewrite FloatAxioms.ltb_spec, FloatAxioms.leb_spec, Prim2SF_zero.
  unfold SFltb, SFleb.
  destruct (Prim2SF b) as [[]|[]| |[] m e]; simpl; congruence.
Qed.

Lemma truediv_nonzero (a b : float) :
  (b =? 0)%float = false -> truediv a b = Return (a / b)%float.
Proof. intros H. unfold truediv. rewrite H. reflexivity. Qed.

(** Two floats that [=?] tells apart are different. *)
Lemma float_neq (a b : float) :
  (a =? b)%float = false -> (b =? b)%float = true -> a <> b.
Proof. intros Hab Hbb E. rewrite E in Hab. congruence. Qed.

(** ** Dict updates *)

Lemma dict_get_app k d1 d2 :
  dict_get k (d1 ++ d2) =
  match dict_get k d1 with Some v => Some v | None => dict_get k d2 end.
Proof.
  induction d1 as [|[k' v] d1 IH]; simpl; [reflexivity|].
  destruct (String.eqb k k'); [reflexivity | exact IH].
Qed.

(** Later entries win; keys that are not updated keep their value. *)
Lemma lookup_dict_update d : forall (c : gmap string pyval) k,
  dict_update d c !! k =
  match dict_get k (rev d) with Some v => Some v | None => c !! k end.
Proof.
  unfold dict_update.
  induction d as [|[k' v] d IH]; intros c k; simpl; [reflexivity|].
  rewrite IH, dict_get_app. simpl.
  destruct (dict_get k (rev d)); [reflexivity|].
  destruct (String.eqb_spec k k') as [->|Hne].
  - apply lookup_insert_eq.
  - apply lookup_insert_ne. congruence.
Qed.

(** ** The query log is framed out of every operation *)

Create HintDb log_frame.

Lemma preserves_log_ret {A} (a : A) : preserves_log (ret a).
Proof. intros w. reflexivity. Qed.

Lemma preserves_log_lift {A} (o : outcome A) : preserves_log (lift o).
Proof. intros w. reflexivity. Qed.

Lemma preserves_log_bind {A B} (m : M A) (k : A -> M B) :
  preserves_log m -> (forall a, preserves_log (k a)) -> preserves_log (bind m k).
Proof.
  intros Hm Hk w. unfold bind. specialize (Hm w).
  destruct (m w) as [[a|e] w1]; simpl in *; [|assumption].
  rewrite Hk. assumption.
Qed.

Lemma preserves_log_try {A} (m : M A) (h : exn -> M A) :
  preserves_log m -> (forall e, preserves_log (h e)) ->
  preserves_log (try_except m h).
Proof.
  intros Hm Hh w. unfold try_except. specialize (Hm w).
  destruct (m w) as [[a|e] w1]; simpl in *; [assumption|].
  rewrite Hh. assumption.
Qed.

Lemma preserves_log_for_each {A S} (l : list A) (body : S -> A -> M S) :
  (forall acc a, preserves_log (body acc a)) ->
  forall acc, preserves_log (for_each l body acc).
Proof.
  intros Hb. induction l as [|a l IH]; intros acc; simpl.
  - apply preserves_log_ret.
  - apply preserves_log_bind; auto.
Qed.

Lemma preserves_log_context_set k v : preserves_log (context_set k v).
Proof. intros w. reflexivity. Qed.

Lemma preserves_log_context_update d : preserves_log (context_update d).
Proof. intros w. reflexivity. Qed.

Lemma preserves_log_new_context : preserves_log new_context.
Proof. intros w. reflexivity. Qed.

Lemma preserves_log_get_context : preserves_log get_context.
Proof. intros w. reflexivity. Qed.

Lemma preserves_log_if {A} (b : bool) (m1 m2 : M A) :
  preserves_log m1 -> preserves_log m2 -> preserves_log (if b then m1 else m2).
Proof. destruct b; auto. Qed.

Lemma preserves_log_engine IAPWS97 q : preserves_log (engine IAPWS97 q).
Proof. intros w. reflexivity. Qed.

#[local] Hint Resolve preserves_log_ret preserves_log_lift preserves_log_bind
  preserves_log_try preserves_log_for_each preserves_log_context_set
  preserves_log_context_update preserves_log_new_context
  preserves_log_get_context preserves_log_if preserves_log_engine : log_frame.

(** Unfolding a run of the monad. *)
Ltac run :=
  cbv beta iota zeta delta
    [bind lift ret try_except engine context_set context_update fst snd
     context engine_calls query_log].

(** Case analysis on the next engine call of a run. *)
Ltac step_engine IAPWS97 :=
  match goal with
  | |- context [match IAPWS97 ?q with _ => _ end] =>
      let st := fresh "st" in
      let e := fresh "e" in
      let E := fresh "E" in
      destruct (IAPWS97 q) as [st|e] eqn:E; run
  end.

(** A run that stopped on an exception: the calls so far, nothing else. *)
Ltac raised :=
  split; [rewrite <- ?app_assoc; reflexivity
         | left; split; [eexists; reflexivity | reflexivity]].

Ltac stopped :=
  split; [eexists; rewrite <- ?app_assoc; reflexivity | discriminate].

Section Properties.

Variable IAPWS97 : IAPWS.query -> outcome IAPWS.state.

Lemma preserves_log_dome : preserves_log (generate_saturation_dome IAPWS97).
Proof.
  unfold generate_saturation_dome, dome_step.
  auto 10 with log_frame.
Qed.

Lemma preserves_log_state_point request :
  preserves_log (handle_state_point IAPWS97 request).
Proof.
  unfold handle_state_point, state_point_try, intermediate_step.
  apply preserves_log_try.
  - repeat first [ apply preserves_log_bind; [ | intros ? ]
                 | apply preserves_log_if
                 | apply preserves_log_for_each; intros ? ?
                 | solve [auto with log_frame] ].
  - intros e. unfold state_point_except.
    destruct e; try destruct (contains _ _); auto with log_frame.
Qed.

Lemma preserves_log_rankine request :
  preserves_log (handle_rankine_cycle IAPWS97 request).
Proof.
  unfold handle_rankine_cycle, rankine_cycle_try.
  apply preserves_log_try.
  - repeat first [ apply preserves_log_bind; [ | intros ? ]
                 | apply preserves_log_if
                 | solve [auto with log_frame] ].
  - intros e. unfold rankine_except.
    destruct e; try destruct (contains _ _); auto with log_frame.
Qed.

Lemma preserves_log_view request :
  preserves_log (steam_calculator IAPWS97 request).
Proof.
  unfold steam_calculator.
  repeat first [ apply preserves_log_dome | apply preserves_log_rankine
               | apply preserves_log_state_point
               | apply preserves_log_bind; [ | intros ? ]
               | apply preserves_log_if
               | solve [auto with log_frame] ].
Qed.

(** C1 (as amended): no computation attempt, state-point or Rankine cycle,
    successful or failed, writes to the query log. Whatever the engine does
    and whatever the request holds, the view hands back the [SteamQueryLog]
    table exactly as it found it: no record is created, mutated or deleted. *)
Theorem query_log_untouched request w :
  query_log (snd (steam_calculator IAPWS97 request w)) = query_log w.
Proof. apply preserves_log_view. Qed.

(** ** The saturation dome *)

Lemma dome_step_run lines t w :
  dome_step IAPWS97 lines t w =
  (Return match dome_sample IAPWS97 t with
          | Some (pl, pv) => (fst lines ++ [pl], snd lines ++ [pv])
          | None => lines
          end,
   {| context := context w;
      engine_calls := engine_calls w ++ dome_queries IAPWS97 t;
      query_log := query_log w |}).
Proof.
  unfold dome_step, dome_sample, dome_queries, try_except, bind, engine,
    resolved, ret.
  destruct (IAPWS97 (IAPWS.Tx _ 0)) as [l|e]; simpl.
  - destruct (IAPWS97 (IAPWS.Tx _ 1)) as [v|e]; simpl;
      rewrite <- app_assoc; reflexivity.
  - reflexivity.
Qed.

Lemma dome_loop_run temps : forall lines w,
  for_each temps (dome_step IAPWS97) lines w =
  (Return (fst lines ++ map fst (omap (dome_sample IAPWS97) temps),
           snd lines ++ map snd (omap (dome_sample IAPWS97) temps)),
   {| context := context w;
      engine_calls := engine_calls w ++ concat (map (dome_queries IAPWS97) temps);
      query_log := query_log w |}).
Proof.
  induction temps as [|t temps IH]; intros [ll vl] w; simpl.
  - unfold ret. rewrite !app_nil_r. destruct w; reflexivity.
  - unfold bind. rewrite dome_step_run. rewrite IH. simpl.
    rewrite <- !app_assoc.
    destruct (dome_sample IAPWS97 t) as [[pl pv]|]; simpl;
      rewrite <- ?app_assoc; reflexivity.
Qed.

Lemma dome_run w :
  generate_saturation_dome IAPWS97 w =
  (Return (map fst (omap (dome_sample IAPWS97) (range 0 374 10)) ++ [critical_point],
           map snd (omap (dome_sample IAPWS97) (range 0 374 10)) ++ [critical_point]),
   {| context := context w;
      engine_calls :=
        engine_calls w ++ concat (map (dome_queries IAPWS97) (range 0 374 10));
      query_log := query_log w |}).
Proof.
  unfold generate_saturation_dome, bind. rewrite dome_loop_run. reflexivity.
Qed.

(** C8: the sampler sweeps 0, 10, ..., 370 degrees Celsius (step 10, the last
    one just under the critical temperature); at each temperature it asks
    the engine for quality 0 and then quality 1; a temperature at which the
    engine fails contributes nothing and raises nothing; and both returned
    sequences end with the critical point (entropy 4.406, temperature
    373.946). *)
Theorem saturation_dome_sweep w :
  let sweep := range 0 374 10 in
  let samples := omap (dome_sample IAPWS97) sweep in
  let critical := VDict [("x", VFloat 4.406); ("y", VFloat 373.946)] in
  sweep = [0; 10; 20; 30; 40; 50; 60; 70; 80; 90; 100; 110; 120; 130; 140;
           150; 160; 170; 180; 190; 200; 210; 220; 230; 240; 250; 260; 270;
           280; 290; 300; 310; 320; 330; 340; 350; 360; 370]
  /\ exists liquid_line vapor_line,
      generate_saturation_dome IAPWS97 w =
        (Return (liquid_line, vapor_line),
         {| context := context w;
            engine_calls :=
              engine_calls w ++ concat (map (dome_queries IAPWS97) sweep);
            query_log := query_log w |})
      /\ liquid_line = map fst samples ++ [critical]
      /\ vapor_line = map snd samples ++ [critical]
      /\ last liquid_line = Some critical
      /\ last vapor_line = Some critical.
Proof.
  intros sweep samples critical. split; [reflexivity|].
  eexists _, _. split; [apply dome_run|].
  repeat split; apply last_snoc.
Qed.

(** One sample per sweep temperature at which both lookups return. *)
Lemma dome_samples_resolved temps :
  length (omap (dome_sample IAPWS97) temps) =
  length (List.filter (dome_resolves IAPWS97) temps).
Proof.
  induction temps as [|t temps IH]; [reflexivity|].
  cbn [omap list_omap List.filter].
  unfold dome_sample at 1, dome_resolves at 1, resolved.
  destruct (IAPWS97 (IAPWS.Tx _ 0)) as [l|e]; simpl;
    [destruct (IAPWS97 (IAPWS.Tx _ 1)) as [v|e]; simpl|]; rewrite IH; reflexivity.
Qed.

(** C9: whatever the engine does, the two branches grow together. A sweep
    step at which both lookups return appends the liquid point to the liquid
    branch and the vapor point to the vapor branch; a step at which a lookup
    raises leaves both branches as they were. The sampler returns, in both
    branches, one point for each sweep temperature at which both lookups
    return, followed by the critical point: the liquid-branch and the
    vapor-branch sequence have the same length. *)
Theorem dome_branches_same_length :
  (forall lines t w,
      let t_kelvin := (float_of_Z t + 273.15)%float in
      (forall sat_liquid sat_vapor,
          IAPWS97 (IAPWS.Tx t_kelvin 0) = Return sat_liquid ->
          IAPWS97 (IAPWS.Tx t_kelvin 1) = Return sat_vapor ->
          fst (dome_step IAPWS97 lines t w) =
          Return (fst lines ++ [point (IAPWS.s sat_liquid) (VInt t)],
                  snd lines ++ [point (IAPWS.s sat_vapor) (VInt t)]))
      /\ (forall e,
            IAPWS97 (IAPWS.Tx t_kelvin 0) = Raised e
            \/ IAPWS97 (IAPWS.Tx t_kelvin 1) = Raised e ->
            fst (dome_step IAPWS97 lines t w) = Return lines))
  /\ (forall w, exists liquid_samples vapor_samples,
        fst (generate_saturation_dome IAPWS97 w) =
          Return (liquid_samples ++ [critical_point],
                  vapor_samples ++ [critical_point])
        /\ length liquid_samples =
           length (List.filter (dome_resolves IAPWS97) (range 0 374 10))
        /\ length vapor_samples =
           length (List.filter (dome_resolves IAPWS97) (range 0 374 10))
        /\ length (liquid_samples ++ [critical_point]) =
           length (vapor_samples ++ [critical_point])).
Proof.
  split.
  - intros lines t w t_kelvin. subst t_kelvin.
    unfold dome_step, try_except, bind, engine, ret.
    split.
    + intros sat_liquid sat_vapor -> ->. reflexivity.
    + intros e [->| Hv]; [reflexivity|].
      destruct (IAPWS97 (IAPWS.Tx _ 0)); [rewrite Hv|]; reflexivity.
  - intros w. rewrite dome_run. cbn [fst]. eexists _, _. split; [reflexivity|].
    rewrite !length_app, !length_map, dome_samples_resolved.
    repeat split.
Qed.

(** ** The state-point evaluator *)

Lemma state_point_except_sets_error e w :
  is_Some (context (snd (state_point_except e w)) !! "error")
  /\ engine_calls (snd (state_point_except e w)) = engine_calls w.
Proof.
  unfold state_point_except.
  destruct e; try destruct (contains _ _); simpl;
    rewrite lookup_insert_eq; eauto.
Qed.

Section StatePoint.

Variables (request : HttpRequest) (w : world) (p_val t_val : float).
Hypothesis H_inputs : state_point_inputs request p_val t_val.

Abbreviation p_unit := (POST request !! "p_unit").
Abbreviation t_unit := (POST request !! "t_unit").
Abbreviation t_k := (temperature_to_kelvin t_unit t_val).
Abbreviation w' := (snd (handle_state_point IAPWS97 request w)).
Abbreviation r :=
  (state_point_try IAPWS97 (POST request !! "pressure")
     (POST request !! "temperature") p_unit t_unit w).

(** The handler adds no engine call, and a run without an error message is
    a run of the [try] suite to its end. *)
Lemma state_point_handler :
  engine_calls w' = engine_calls (snd r)
  /\ (no_error w' -> fst r = Return tt /\ w' = snd r).
Proof.
  unfold handle_state_point, try_except.
  destruct (state_point_try _ _ _ _ _ w) as [[[]|e] w1]; simpl.
  - split; [reflexivity|]. intros _. split; reflexivity.
  - destruct (state_point_except_sets_error e w1) as [[v Hv] Hc].
    split; [exact Hc|]. unfold no_error. rewrite Hv. discriminate.
Qed.

Lemma state_point_unbound :
  pressure_to_mpa p_unit p_val = None ->
  w' = {| context :=
            <["error" := VStr "An unexpected calculation error occurred. Verify your inputs."]>
              (context w);
          engine_calls := engine_calls w; query_log := query_log w |}.
Proof.
  intros Hu. destruct H_inputs as [H_pressure H_temperature].
  unfold handle_state_point, state_point_try. run.
  rewrite H_pressure, H_temperature. run. rewrite Hu. reflexivity.
Qed.

Lemma state_point_run p_mpa :
  pressure_to_mpa p_unit p_val = Some p_mpa ->
  (exists rest, engine_calls (snd r) = engine_calls w ++ IAPWS.PT p_mpa t_k :: rest)
  /\ (fst r = Return tt ->
      exists steam,
        IAPWS97 (IAPWS.PT p_mpa t_k) = Return steam
        /\ let base :=
             dict_update (state_point_context p_val t_val p_unit t_unit t_k steam)
               (context w) in
           (IAPWS.phase steam = "Liquid" ->
            snd r = {| context := <["x" := VStr "0"]>
                                   (<["state" := VStr "Compressed Liquid"]> base);
                       engine_calls := engine_calls w ++ [IAPWS.PT p_mpa t_k];
                       query_log := query_log w |})
           /\ (IAPWS.phase steam = "Gas" ->
               snd r = {| context := <["x" := VStr "1"]>
                                      (<["state" := VStr "Superheated Steam"]> base);
                          engine_calls := engine_calls w ++ [IAPWS.PT p_mpa t_k];
                          query_log := query_log w |})
           /\ (IAPWS.phase steam = "Two-phase" ->
               exists q s2 s4 s6 s8,
                 IAPWS.x steam = Some q
                 /\ IAPWS97 (IAPWS.Px p_mpa 0.2) = Return s2
                 /\ IAPWS97 (IAPWS.Px p_mpa 0.4) = Return s4
                 /\ IAPWS97 (IAPWS.Px p_mpa 0.6) = Return s6
                 /\ IAPWS97 (IAPWS.Px p_mpa 0.8) = Return s8
                 /\ snd r =
                    {| context :=
                         <["intermediate_data" :=
                             VList [intermediate_row 0.2 s2; intermediate_row 0.4 s4;
                                    intermediate_row 0.6 s6; intermediate_row 0.8 s8]]>
                           (<["x" := VFloat (round q 4)]>
                              (<["state" := VStr "Wet Steam"]> base));
                       engine_calls :=
                         engine_calls w ++
                         [IAPWS.PT p_mpa t_k; IAPWS.Px p_mpa 0.2; IAPWS.Px p_mpa 0.4;
                          IAPWS.Px p_mpa 0.6; IAPWS.Px p_mpa 0.8];
                       query_log := query_log w |})).
Proof.
  intros Hu. destruct H_inputs as [H_pressure H_temperature].
  destruct w as [ctx calls log].
  unfold state_point_try, intermediate_step. run.
  rewrite H_pressure, H_temperature. run. rewrite Hu.
  cbv beta iota zeta delta [read_local]. run.
  step_engine IAPWS97.
  2:{ split; [exists []; reflexivity | discriminate]. }
  destruct (String.eqb (IAPWS.phase st) "Liquid") eqn:HL; run.
  { apply String.eqb_eq in HL. split; [exists []; reflexivity|]. intros _.
    exists st. split; [reflexivity|]. rewrite HL. cbv zeta.
    split; [reflexivity|]. split; discriminate. }
  destruct (String.eqb (IAPWS.phase st) "Gas") eqn:HG; run.
  { apply String.eqb_eq in HG. split; [exists []; reflexivity|]. intros _.
    exists st. split; [reflexivity|]. rewrite HG. cbv zeta.
    split; [discriminate|]. split; [reflexivity | discriminate]. }
  destruct (String.eqb (IAPWS.phase st) "Two-phase") eqn:HT; run.
  2:{ apply String.eqb_neq in HL, HG, HT. split; [exists []; reflexivity|].
      intros _. exists st. split; [reflexivity|]. cbv zeta.
      repeat split; intros; contradiction. }
  apply String.eqb_eq in HT.
  unfold getattr_x. destruct (IAPWS.x st) as [q|] eqn:Hx; run; [|stopped].
  cbv beta iota zeta delta [for_each]. run.
  step_engine IAPWS97; [|stopped].
  step_engine IAPWS97; [|stopped].
  step_engine IAPWS97; [|stopped].
  step_engine IAPWS97; [|stopped].
  split; [eexists; rewrite <- ?app_assoc; reflexivity|]. intros _.
  exists st. split; [reflexivity|]. rewrite HT. cbv zeta.
  split; [discriminate|]. split; [discriminate|]. intros _.
  exists q, st0, st1, st2, st3. rewrite <- !app_assoc.
  repeat split; assumption.
Qed.

(** C3 (as amended): for a request whose pressure and temperature parse as
    numbers ([H_inputs]), a pressure-unit tag other than bar, pa and atm,
    or a missing one, leaves [p_mpa] unbound: the attempt fails with the
    generic error message before any engine call. When the pressure unit
    is one of the three, the temperature unit is only compared with c:
    every other tag, known or unknown, is taken as kelvin, and the engine
    is called with the temperature as typed. *)
Theorem unit_conversion_fallthrough :
  (p_unit <> Some "bar" -> p_unit <> Some "pa" -> p_unit <> Some "atm" ->
   context w' =
     <["error" := VStr "An unexpected calculation error occurred. Verify your inputs."]>
       (context w)
   /\ engine_calls w' = engine_calls w)
  /\ (forall p_mpa,
        pressure_to_mpa p_unit p_val = Some p_mpa ->
        t_unit <> Some "c" ->
        exists rest,
          engine_calls w' = engine_calls w ++ IAPWS.PT p_mpa t_val :: rest).
Proof.
  split.
  - intros Hbar Hpa Hatm.
    assert (Hu : pressure_to_mpa p_unit p_val = None).
    { unfold pressure_to_mpa, field_is.
      destruct p_unit as [u|]; [|reflexivity].
      destruct (String.eqb_spec u "bar") as [->|_]; [contradiction|].
      destruct (String.eqb_spec u "pa") as [->|_]; [contradiction|].
      destruct (String.eqb_spec u "atm") as [->|_]; [contradiction|].
      reflexivity. }
    rewrite (state_point_unbound Hu). split; reflexivity.
  - intros p_mpa Hu Hc.
    assert (Hk : t_k = t_val).
    { unfold temperature_to_kelvin, field_is.
      destruct t_unit as [u|]; [|reflexivity].
      destruct (String.eqb_spec u "c") as [->|_]; [contradiction | reflexivity]. }
    destruct (state_point_run _ Hu) as [[rest Hrest] _].
    exists rest. rewrite (proj1 state_point_handler), Hrest, Hk. reflexivity.
Qed.

(** C7 (as amended): in a successful state-point evaluation, phase Liquid
    gives the label Compressed Liquid and quality 0, with the one engine
    call; phase Gas gives Superheated Steam and quality 1; phase Two-phase
    gives Wet Steam, the quality is the engine's x rounded to four decimal
    places, and four more states are looked up at the same pressure and
    qualities 0.2, 0.4, 0.6, 0.8, in that order, and listed with h, s and v
    rounded to 2, 4 and 5 places. *)
Theorem state_point_classification p_mpa steam :
  pressure_to_mpa p_unit p_val = Some p_mpa ->
  IAPWS97 (IAPWS.PT p_mpa t_k) = Return steam ->
  no_error w' ->
  (IAPWS.phase steam = "Liquid" ->
   context w' !! "state" = Some (VStr "Compressed Liquid")
   /\ context w' !! "x" = Some (VStr "0")
   /\ engine_calls w' = engine_calls w ++ [IAPWS.PT p_mpa t_k])
  /\ (IAPWS.phase steam = "Gas" ->
      context w' !! "state" = Some (VStr "Superheated Steam")
      /\ context w' !! "x" = Some (VStr "1")
      /\ engine_calls w' = engine_calls w ++ [IAPWS.PT p_mpa t_k])
  /\ (IAPWS.phase steam = "Two-phase" ->
      exists q s2 s4 s6 s8,
        IAPWS.x steam = Some q
        /\ IAPWS97 (IAPWS.Px p_mpa 0.2) = Return s2
        /\ IAPWS97 (IAPWS.Px p_mpa 0.4) = Return s4
        /\ IAPWS97 (IAPWS.Px p_mpa 0.6) = Return s6
        /\ IAPWS97 (IAPWS.Px p_mpa 0.8) = Return s8
        /\ context w' !! "state" = Some (VStr "Wet Steam")
        /\ context w' !! "x" = Some (VFloat (round q 4))
        /\ context w' !! "intermediate_data" =
           Some (VList
                   [VDict [("x", VFloat 0.2);
                           ("h", VFloat (round (IAPWS.h s2) 2));
                           ("s", VFloat (round (IAPWS.s s2) 4));
                           ("v", VFloat (round (IAPWS.v s2) 5))];
                    VDict [("x", VFloat 0.4);
                           ("h", VFloat (round (IAPWS.h s4) 2));
                           ("s", VFloat (round (IAPWS.s s4) 4));
                           ("v", VFloat (round (IAPWS.v s4) 5))];
                    VDict [("x", VFloat 0.6);
                           ("h", VFloat (round (IAPWS.h s6) 2));
                           ("s", VFloat (round (IAPWS.s s6) 4));
                           ("v", VFloat (round (IAPWS.v s6) 5))];
                    VDict [("x", VFloat 0.8);
                           ("h", VFloat (round (IAPWS.h s8) 2));
                           ("s", VFloat (round (IAPWS.s s8) 4));
                           ("v", VFloat (round (IAPWS.v s8) 5))]])
        /\ engine_calls w' =
           engine_calls w ++
           [IAPWS.PT p_mpa t_k; IAPWS.Px p_mpa 0.2; IAPWS.Px p_mpa 0.4;
            IAPWS.Px p_mpa 0.6; IAPWS.Px p_mpa 0.8]).
Proof.
  intros Hu Hs Hok.
  destruct (proj2 state_point_handler Hok) as [Hr Hw].
  destruct (proj2 (state_point_run _ Hu) Hr) as (steam' & Hs' & HL & HG & HT).
  rewrite Hs in Hs'. injection Hs' as <-. rewrite Hw.
  split; [|split].
  - intros H. rewrite (HL H). simpl.
    rewrite lookup_insert_ne by discriminate. rewrite !lookup_insert_eq. auto.
  - intros H. rewrite (HG H). simpl.
    rewrite lookup_insert_ne by discriminate. rewrite !lookup_insert_eq. auto.
  - intros H.
    destruct (HT H) as (q & s2 & s4 & s6 & s8 & Hq & H2 & H4 & H6 & H8 & ->).
    exists q, s2, s4, s6, s8. simpl.
    rewrite !(lookup_insert_ne _ "intermediate_data") by discriminate.
    rewrite (lookup_insert_ne _ "x" "state") by discriminate.
    rewrite !lookup_insert_eq. repeat split; assumption.
Qed.

End StatePoint.

(** ** The Rankine cycle evaluator *)

Lemma rankine_except_sets_error e w :
  is_Some (context (snd (rankine_except e w)) !! "error")
  /\ engine_calls (snd (rankine_except e w)) = engine_calls w.
Proof.
  unfold rankine_except.
  destruct e; try destruct (contains _ _); simpl;
    rewrite lookup_insert_eq; eauto.
Qed.

Section Rankine.

Variables (request : HttpRequest) (w : world).
Variables (p_low p_high t_high pump_pct turbine_pct : float).
Hypothesis H_inputs :
  rankine_inputs request p_low p_high t_high pump_pct turbine_pct.

Abbreviation p_low_mpa := (p_low / 10)%float.
Abbreviation p_high_mpa := (p_high / 10)%float.
Abbreviation t_high_k := (t_high + 273.15)%float.
Abbreviation pump_eff := (pump_pct / 100)%float.
Abbreviation turbine_eff := (turbine_pct / 100)%float.
Abbreviation w' := (snd (handle_rankine_cycle IAPWS97 request w)).
Abbreviation checks_pass :=
  ((p_high <=? p_low)%float = false
   /\ ((pump_eff <=? 0) || (turbine_eff <=? 0)
       || (1 <? pump_eff) || (1 <? turbine_eff))%float = false).

(** The [try] suite once both checks have passed. *)
Lemma rankine_try_run :
  checks_pass ->
  let r := rankine_cycle_try IAPWS97 request w in
  engine_calls (snd r) =
    engine_calls w ++
    cycle_schedule IAPWS97 p_low_mpa p_high_mpa t_high_k pump_eff turbine_eff
  /\ ((exists e, fst r = Raised e) /\ context (snd r) = context w
      \/ fst r = Return tt
         /\ exists c ratio x3,
             cycle_states IAPWS97 p_low_mpa p_high_mpa t_high_k pump_eff turbine_eff
               = Some c
             /\ truediv (IAPWS.T (state1 c)) t_high_k = Return ratio
             /\ (String.eqb (IAPWS.phase (state3 c)) "Gas" = true
                  /\ x3 = VStr "1 (sat. vapor)"
                 \/ String.eqb (IAPWS.phase (state3 c)) "Gas" = false
                    /\ exists q, IAPWS.x (state3 c) = Some q
                                 /\ x3 = VFloat (round q 4))
             /\ let w_pump := (IAPWS.h (state2 c) - IAPWS.h (state1 c))%float in
                let q_in := (IAPWS.h (state3 c) - IAPWS.h (state2 c))%float in
                let w_turbine := (IAPWS.h (state3 c) - IAPWS.h (state4 c))%float in
                let w_net := (w_turbine - w_pump)%float in
                context (snd r) =
                dict_update
                  (rankine_context p_low p_high t_high pump_eff turbine_eff
                     (state1 c) (state2 c) (state3 c) (state4 c) x3
                     w_pump q_in w_turbine w_net
                     (if (0 <? q_in)%float
                      then VFloat (w_net / q_in * 100) else VInt 0)
                     ((1 - ratio) * 100))
                  (context w)).
Proof.
  intros [Hp He].
  destruct H_inputs as
    (H_p_cond & H_p_boiler & H_t_boiler & H_pump_eff & H_turbine_eff).
  assert (Hnz : (pump_eff =? 0)%float = false).
  { apply leb_zero_false_nonzero.
    destruct (pump_eff <=? 0)%float; [discriminate He | reflexivity]. }
  destruct w as [ctx calls log].
  unfold rankine_cycle_try. run.
  rewrite H_p_cond, H_p_boiler, H_t_boiler, H_pump_eff, H_turbine_eff.
  run. rewrite Hp, He. run.
  unfold cycle_schedule, resolved.
  step_engine IAPWS97; [|raised].
  step_engine IAPWS97; [|raised].
  rewrite truediv_nonzero by exact Hnz. run.
  step_engine IAPWS97; [|raised].
  step_engine IAPWS97; [|raised].
  step_engine IAPWS97; [|raised].
  step_engine IAPWS97; [|raised].
  assert (Heff : forall ww,
    (if (0 <? IAPWS.h st2 - IAPWS.h st1)%float
     then fun w0 : world =>
       match truediv (IAPWS.h st2 - IAPWS.h st4 - (IAPWS.h st1 - IAPWS.h st))
               (IAPWS.h st2 - IAPWS.h st1) with
       | Return a => (Return (VFloat (a * 100)), w0)
       | Raised e => (Raised e, w0)
       end
     else fun w0 : world => (Return (VInt 0), w0)) ww =
    (Return (if (0 <? IAPWS.h st2 - IAPWS.h st1)%float
             then VFloat ((IAPWS.h st2 - IAPWS.h st4 - (IAPWS.h st1 - IAPWS.h st))
                          / (IAPWS.h st2 - IAPWS.h st1) * 100)
             else VInt 0), ww)).
  { intros ww.
    destruct (0 <? IAPWS.h st2 - IAPWS.h st1)%float eqn:Hq; [|reflexivity].
    rewrite truediv_nonzero by (apply ltb_zero_true_nonzero; exact Hq).
    reflexivity. }
  rewrite Heff. clear Heff. run.
  destruct (truediv (IAPWS.T st) t_high_k) as [ratio|e] eqn:Hr; run; [|raised].
  assert (Hstates :
    cycle_states IAPWS97 p_low_mpa p_high_mpa t_high_k pump_eff turbine_eff =
    Some {| state1 := st; state2s := st0; state2 := st1;
            state3 := st2; state4s := st3; state4 := st4 |}).
  { unfold cycle_states, resolved.
    rewrite E; simpl. rewrite E0; simpl. rewrite E1; simpl.
    rewrite E2; simpl. rewrite E3; simpl. rewrite E4; simpl. reflexivity. }
  destruct (String.eqb (IAPWS.phase st2) "Gas") eqn:Hg; run.
  - split; [rewrite <- ?app_assoc; reflexivity|].
    right. split; [reflexivity|].
    eexists _, ratio, _. split; [exact Hstates|]. simpl.
    split; [exact Hr|]. split; [left; split; [exact Hg | reflexivity]|].
    reflexivity.
  - unfold getattr_x. destruct (IAPWS.x st2) as [q|] eqn:Hx; run; [|raised].
    split; [rewrite <- ?app_assoc; reflexivity|].
    right. split; [reflexivity|].
    eexists _, ratio, _. split; [exact Hstates|]. simpl.
    split; [exact Hr|]. split; [right; split; [exact Hg | eauto]|].
    reflexivity.
Qed.

(** A failed check ends the run with its message and no engine call. *)
Lemma rankine_rejects :
  ((p_high <=? p_low)%float = true ->
   w' = {| context := <["error" := VStr physics_violation]> (context w);
           engine_calls := engine_calls w; query_log := query_log w |})
  /\ ((p_high <=? p_low)%float = false ->
      ((pump_eff <=? 0) || (turbine_eff <=? 0)
       || (1 <? pump_eff) || (1 <? turbine_eff))%float = true ->
      w' = {| context := <["error" := VStr invalid_efficiency]> (context w);
              engine_calls := engine_calls w; query_log := query_log w |}).
Proof.
  destruct H_inputs as
    (H_p_cond & H_p_boiler & H_t_boiler & H_pump_eff & H_turbine_eff).
  unfold handle_rankine_cycle, rankine_cycle_try.
  split; [intros Hp | intros Hp He]; run;
    rewrite H_p_cond, H_p_boiler, H_t_boiler, H_pump_eff, H_turbine_eff;
    run; rewrite Hp; run; [|rewrite He; run]; reflexivity.
Qed.

Lemma rankine_calls : engine_calls w' =
  engine_calls (snd (rankine_cycle_try IAPWS97 request w)).
Proof.
  unfold handle_rankine_cycle, try_except.
  destruct (rankine_cycle_try IAPWS97 request w) as [[[]|e] w1]; simpl;
    [reflexivity | apply rankine_except_sets_error].
Qed.

Lemma rankine_no_error_inv :
  no_error w' ->
  checks_pass
  /\ fst (rankine_cycle_try IAPWS97 request w) = Return tt
  /\ w' = snd (rankine_cycle_try IAPWS97 request w).
Proof.
  intros Hok.
  assert (Hc : checks_pass).
  { destruct (p_high <=? p_low)%float eqn:Hp.
    { unfold no_error in Hok. rewrite (proj1 rankine_rejects Hp) in Hok.
      simpl in Hok. rewrite lookup_insert_eq in Hok. discriminate. }
    split; [reflexivity|].
    match goal with |- ?b = false => destruct b eqn:He; [|reflexivity] end.
    unfold no_error in Hok. rewrite (proj2 rankine_rejects Hp He) in Hok.
    simpl in Hok. rewrite lookup_insert_eq in Hok. discriminate. }
  split; [exact Hc|].
  unfold no_error, handle_rankine_cycle, try_except in *.
  destruct (rankine_cycle_try IAPWS97 request w) as [[[]|e] w1]; simpl.
  - split; reflexivity.
  - destruct (rankine_except_sets_error e w1) as [[v Hv] _].
    simpl in Hok. rewrite Hv in Hok. discriminate.
Qed.

(** A successful run: the six states resolve and the context receives the
    result dict. *)
Lemma rankine_success :
  no_error w' ->
  exists c ratio x3,
    cycle_states IAPWS97 p_low_mpa p_high_mpa t_high_k pump_eff turbine_eff = Some c
    /\ (String.eqb (IAPWS.phase (state3 c)) "Gas" = true
         /\ x3 = VStr "1 (sat. vapor)"
        \/ String.eqb (IAPWS.phase (state3 c)) "Gas" = false
           /\ exists q, IAPWS.x (state3 c) = Some q /\ x3 = VFloat (round q 4))
    /\ let w_pump := (IAPWS.h (state2 c) - IAPWS.h (state1 c))%float in
       let q_in := (IAPWS.h (state3 c) - IAPWS.h (state2 c))%float in
       let w_turbine := (IAPWS.h (state3 c) - IAPWS.h (state4 c))%float in
       let w_net := (w_turbine - w_pump)%float in
       context w' =
       dict_update
         (rankine_context p_low p_high t_high pump_eff turbine_eff
            (state1 c) (state2 c) (state3 c) (state4 c) x3
            w_pump q_in w_turbine w_net
            (if (0 <? q_in)%float then VFloat (w_net / q_in * 100) else VInt 0)
            ((1 - ratio) * 100))
         (context w).
Proof.
  intros Hok. destruct (rankine_no_error_inv Hok) as (Hc & Hr & Hw).
  destruct (rankine_try_run Hc)
    as [_ [[[e He] _]|[_ (c & ratio & x3 & H1 & _ & H3 & H4)]]].
  - rewrite Hr in He. discriminate.
  - exists c, ratio, x3. rewrite Hw. auto.
Qed.

(** X23: the two checks as lines 130-133 perform them, in order and before
    any engine lookup. If the condenser pressure is at least the boiler
    pressure, the run is rejected with the Physics Violation message and no
    engine call. Otherwise, if an efficiency (as a fraction) compares at
    most 0 or above 1, the run is rejected with the efficiency message and
    no engine call. *)
Theorem rankine_preconditions_fail_fast :
  ((p_high <=? p_low)%float = true ->
   context w' = <["error" := VStr physics_violation]> (context w)
   /\ engine_calls w' = engine_calls w)
  /\ ((p_high <=? p_low)%float = false ->
      ((pump_eff <=? 0) || (turbine_eff <=? 0)
       || (1 <? pump_eff) || (1 <? turbine_eff))%float = true ->
      context w' = <["error" := VStr invalid_efficiency]> (context w)
      /\ engine_calls w' = engine_calls w).
Proof.
  split.
  - intros Hp. rewrite (proj1 rankine_rejects Hp). split; reflexivity.
  - intros Hp He. rewrite (proj2 rankine_rejects Hp He). split; reflexivity.
Qed.

(** C6: when both checks pass, the engine is asked for State 1 (condenser
    pressure, quality 0), State 2s (boiler pressure, entropy of State 1),
    State 2 (boiler pressure, enthalpy h1 + (h2s - h1) / pump efficiency),
    State 3 (boiler pressure and temperature), State 4s (condenser pressure,
    entropy of State 3) and State 4 (condenser pressure, enthalpy
    h3 - (h3 - h4s) * turbine efficiency), in that order, each only after
    the one before it has resolved; in a successful run all six are made and
    the rows of State 2 and State 4 report the enthalpies of the states so
    resolved. *)
Theorem rankine_lookup_order :
  (p_high <=? p_low)%float = false ->
  ((pump_eff <=? 0) || (turbine_eff <=? 0)
   || (1 <? pump_eff) || (1 <? turbine_eff))%float = false ->
  engine_calls w' =
    engine_calls w ++
    cycle_schedule IAPWS97 p_low_mpa p_high_mpa t_high_k pump_eff turbine_eff
  /\ (no_error w' ->
      exists c row2 row4,
        cycle_states IAPWS97 p_low_mpa p_high_mpa t_high_k pump_eff turbine_eff
          = Some c
        /\ engine_calls w' =
           engine_calls w ++
           [IAPWS.Px p_low_mpa 0;
            IAPWS.Ps p_high_mpa (IAPWS.s (state1 c));
            IAPWS.Ph p_high_mpa
              (IAPWS.h (state1 c)
               + (IAPWS.h (state2s c) - IAPWS.h (state1 c)) / pump_eff);
            IAPWS.PT p_high_mpa t_high_k;
            IAPWS.Ps p_low_mpa (IAPWS.s (state3 c));
            IAPWS.Ph p_low_mpa
              (IAPWS.h (state3 c)
               - (IAPWS.h (state3 c) - IAPWS.h (state4s c)) * turbine_eff)]
        /\ context w' !! "state2" = Some (VDict row2)
        /\ dict_get "h" row2 = Some (VFloat (round (IAPWS.h (state2 c)) 2))
        /\ context w' !! "state4" = Some (VDict row4)
        /\ dict_get "h" row4 = Some (VFloat (round (IAPWS.h (state4 c)) 2))).
Proof.
  intros Hp He.
  assert (Hcalls : engine_calls w' =
    engine_calls w ++
    cycle_schedule IAPWS97 p_low_mpa p_high_mpa t_high_k pump_eff turbine_eff).
  { rewrite <- (proj1 (rankine_try_run (conj Hp He))). apply rankine_calls. }
  split; [exact Hcalls|].
  intros Hok. destruct (rankine_success Hok) as (c & ratio & x3 & Hs & _ & Hctx).
  cbv zeta in Hctx. exists c. eexists _, _. split; [exact Hs|].
  split.
  - rewrite Hcalls. f_equal.
    revert Hs. unfold cycle_states, cycle_schedule.
    destruct (resolved IAPWS97 (IAPWS.Px p_low_mpa 0)) as [st1|];
      simpl; [|discriminate].
    destruct (resolved IAPWS97 (IAPWS.Ps p_high_mpa _)) as [st2s|];
      simpl; [|discriminate].
    destruct (resolved IAPWS97 (IAPWS.Ph p_high_mpa _)) as [st2|];
      simpl; [|discriminate].
    destruct (resolved IAPWS97 (IAPWS.PT p_high_mpa _)) as [st3|];
      simpl; [|discriminate].
    destruct (resolved IAPWS97 (IAPWS.Ps p_low_mpa _)) as [st4s|];
      simpl; [|discriminate].
    destruct (resolved IAPWS97 (IAPWS.Ph p_low_mpa _)) as [st4|];
      simpl; [|discriminate].
    intros [= <-]. reflexivity.
  - rewrite Hctx, !lookup_dict_update. repeat split.
Qed.

(** C4 (as amended): in a successful Rankine result the quality of State 2
    and of State 4 follows the presence of the attribute x on the resolved
    state, whatever its phase tag: it is x rounded to four decimal places
    when the state carries x, and N/A when it does not. The phase entry is
    the engine's phase tag. *)
Theorem rankine_quality_follows_attribute :
  no_error w' ->
  exists c row2 row4,
    cycle_states IAPWS97 p_low_mpa p_high_mpa t_high_k pump_eff turbine_eff = Some c
    /\ context w' !! "state2" = Some (VDict row2)
    /\ context w' !! "state4" = Some (VDict row4)
    /\ dict_get "phase" row2 = Some (VStr (IAPWS.phase (state2 c)))
    /\ dict_get "phase" row4 = Some (VStr (IAPWS.phase (state4 c)))
    /\ dict_get "x" row2 =
       Some match IAPWS.x (state2 c) with
            | Some q => VFloat (round q 4)
            | None => VStr "N/A"
            end
    /\ dict_get "x" row4 =
       Some match IAPWS.x (state4 c) with
            | Some q => VFloat (round q 4)
            | None => VStr "N/A"
            end.
Proof.
  intros Hok. destruct (rankine_success Hok) as (c & ratio & x3 & Hs & _ & Hctx).
  cbv zeta in Hctx. exists c. eexists _, _. split; [exact Hs|].
  rewrite Hctx, !lookup_dict_update.
  split; [reflexivity|]. split; [reflexivity|].
  repeat split.
Qed.

(** A run whose six states resolve is completed by the rest of the suite,
    whatever the heat input is, unless the Carnot quotient divides by zero
    or State 3 is not Gas and carries no quality. *)
Lemma rankine_run_completes c :
  checks_pass ->
  cycle_states IAPWS97 p_low_mpa p_high_mpa t_high_k pump_eff turbine_eff = Some c ->
  (t_high_k =? 0)%float = false ->
  IAPWS.phase (state3 c) = "Gas" \/ is_Some (IAPWS.x (state3 c)) ->
  let w_pump := (IAPWS.h (state2 c) - IAPWS.h (state1 c))%float in
  let q_in := (IAPWS.h (state3 c) - IAPWS.h (state2 c))%float in
  let w_turbine := (IAPWS.h (state3 c) - IAPWS.h (state4 c))%float in
  let w_net := (w_turbine - w_pump)%float in
  context w' =
  dict_update
    (rankine_context p_low p_high t_high pump_eff turbine_eff
       (state1 c) (state2 c) (state3 c) (state4 c)
       (if String.eqb (IAPWS.phase (state3 c)) "Gas"
        then VStr "1 (sat. vapor)"
        else match IAPWS.x (state3 c) with
             | Some q => VFloat (round q 4)
             | None => VNone
             end)
       w_pump q_in w_turbine w_net
       (if (0 <? q_in)%float then VFloat (w_net / q_in * 100) else VInt 0)
       ((1 - IAPWS.T (state1 c) / t_high_k) * 100))
    (context w).
Proof.
  intros [Hp He] Hsome Hz Hx3.
  destruct H_inputs as
    (H_p_cond & H_p_boiler & H_t_boiler & H_pump_eff & H_turbine_eff).
  assert (Hnz : (pump_eff =? 0)%float = false).
  { apply leb_zero_false_nonzero.
    destruct (pump_eff <=? 0)%float; [discriminate He | reflexivity]. }
  revert Hsome. unfold cycle_states, resolved.
  destruct (IAPWS97 (IAPWS.Px _ 0)) as [st|] eqn:E; simpl; [|discriminate].
  destruct (IAPWS97 (IAPWS.Ps p_high_mpa _)) as [st0|] eqn:E0;
    simpl; [|discriminate].
  destruct (IAPWS97 (IAPWS.Ph p_high_mpa _)) as [st1|] eqn:E1;
    simpl; [|discriminate].
  destruct (IAPWS97 (IAPWS.PT _ _)) as [st2|] eqn:E2; simpl; [|discriminate].
  destruct (IAPWS97 (IAPWS.Ps p_low_mpa _)) as [st3|] eqn:E3;
    simpl; [|discriminate].
  destruct (IAPWS97 (IAPWS.Ph p_low_mpa _)) as [st4|] eqn:E4;
    simpl; [|discriminate].
  intros [= <-]. simpl in Hx3. cbn [state1 state2 state3 state4].
  destruct w as [ctx calls log].
  unfold handle_rankine_cycle, rankine_cycle_try. run.
  rewrite H_p_cond, H_p_boiler, H_t_boiler, H_pump_eff, H_turbine_eff.
  run. rewrite Hp, He. run.
  rewrite E. run. rewrite E0. run.
  rewrite truediv_nonzero by exact Hnz. run.
  rewrite E1. run. rewrite E2. run. rewrite E3. run. rewrite E4. run.
  destruct (0 <? IAPWS.h st2 - IAPWS.h st1)%float eqn:Hq.
  - rewrite truediv_nonzero by (apply ltb_zero_true_nonzero; exact Hq). run.
    rewrite truediv_nonzero by exact Hz. run.
    destruct (String.eqb (IAPWS.phase st2) "Gas") eqn:Hg; run; [reflexivity|].
    destruct Hx3 as [Hgas|[q Hq3]].
    + rewrite Hgas in Hg. discriminate.
    + unfold getattr_x. rewrite Hq3. run. reflexivity.
  - run. rewrite truediv_nonzero by exact Hz. run.
    destruct (String.eqb (IAPWS.phase st2) "Gas") eqn:Hg; run; [reflexivity|].
    destruct Hx3 as [Hgas|[q Hq3]].
    + rewrite Hgas in Hg. discriminate.
    + unfold getattr_x. rewrite Hq3. run. reflexivity.
Qed.

(** C5 (as amended): in every Rankine computation whose inputs pass both
    checks and whose six states resolve, with heat input q_in = h3 - h2 and
    net work w_net = (h3 - h4) - (h2 - h1), the efficiency never stops the
    run, whatever q_in is: unless the boiler temperature is -273.15 degrees
    Celsius or State 3 is not Gas and carries no quality, the run stores
    success, no error, and an efficiency that is the integer 0 when
    q_in <= 0 (and whenever q_in > 0 does not hold), and otherwise the
    percentage w_net / q_in * 100 rounded to two decimal places. *)
Theorem thermal_efficiency_reported c :
  (p_high <=? p_low)%float = false ->
  ((pump_eff <=? 0) || (turbine_eff <=? 0)
   || (1 <? pump_eff) || (1 <? turbine_eff))%float = false ->
  cycle_states IAPWS97 p_low_mpa p_high_mpa t_high_k pump_eff turbine_eff = Some c ->
  (t_high_k =? 0)%float = false ->
  IAPWS.phase (state3 c) = "Gas" \/ is_Some (IAPWS.x (state3 c)) ->
  let q_in := (IAPWS.h (state3 c) - IAPWS.h (state2 c))%float in
  let w_net := (IAPWS.h (state3 c) - IAPWS.h (state4 c)
                - (IAPWS.h (state2 c) - IAPWS.h (state1 c)))%float in
  context w' !! "success" = Some (VBool true)
  /\ context w' !! "error" = context w !! "error"
  /\ ((q_in <=? 0)%float = true -> context w' !! "efficiency" = Some (VInt 0))
  /\ ((0 <? q_in)%float = false -> context w' !! "efficiency" = Some (VInt 0))
  /\ ((0 <? q_in)%float = true ->
      context w' !! "efficiency" =
      Some (VFloat (round (w_net / q_in * 100) 2))).
Proof.
  intros Hp He Hs Hz Hx3 q_in w_net. subst q_in w_net.
  pose proof (rankine_run_completes c (conj Hp He) Hs Hz Hx3) as Hctx.
  cbv zeta in Hctx.
  assert (Hl : context w' !! "efficiency" =
    Some (round_number
            (if (0 <? IAPWS.h (state3 c) - IAPWS.h (state2 c))%float
             then VFloat ((IAPWS.h (state3 c) - IAPWS.h (state4 c)
                           - (IAPWS.h (state2 c) - IAPWS.h (state1 c)))
                          / (IAPWS.h (state3 c) - IAPWS.h (state2 c)) * 100)
             else VInt 0) 2)).
  { rewrite Hctx, lookup_dict_update. reflexivity. }
  split; [rewrite Hctx, lookup_dict_update; reflexivity|].
  split; [rewrite Hctx, lookup_dict_update; reflexivity|].
  rewrite Hl. repeat split.
  - intros Hle. rewrite (leb_zero_true_not_pos _ Hle). reflexivity.
  - intros Hlt. rewrite Hlt. reflexivity.
  - intros Hlt. rewrite Hlt. reflexivity.
Qed.

(** C10: in a successful Rankine result the phase label of State 3 is
    Superheated Steam whatever phase the engine resolved; when that phase
    is not Gas, in particular when it is Two-phase, the quality of State 3
    is still the number x rounded to four decimal places. *)
Theorem state3_label_is_fixed :
  no_error w' ->
  exists c row3,
    cycle_states IAPWS97 p_low_mpa p_high_mpa t_high_k pump_eff turbine_eff = Some c
    /\ context w' !! "state3" = Some (VDict row3)
    /\ dict_get "phase" row3 = Some (VStr "Superheated Steam")
    /\ (IAPWS.phase (state3 c) = "Gas" ->
        dict_get "x" row3 = Some (VStr "1 (sat. vapor)"))
    /\ (IAPWS.phase (state3 c) <> "Gas" ->
        exists q, IAPWS.x (state3 c) = Some q
                  /\ dict_get "x" row3 = Some (VFloat (round q 4))).
Proof.
  intros Hok. destruct (rankine_success Hok) as (c & ratio & x3 & Hs & Hx & Hctx).
  cbv zeta in Hctx. exists c. eexists. split; [exact Hs|].
  rewrite Hctx, lookup_dict_update.
  split; [reflexivity|]. split; [reflexivity|].
  simpl. split.
  - intros Hg. destruct Hx as [[_ ->]|[Hng _]]; [reflexivity|].
    rewrite Hg in Hng. discriminate.
  - intros Hng. destruct Hx as [[Hg _]|[_ (q & Hq & ->)]].
    + apply String.eqb_eq in Hg. contradiction.
    + exists q. split; [exact Hq | reflexivity].
Qed.

End Rankine.

End Properties.

(** ** Concrete runs *)

(** C1, counterexample: a successful Rankine computation leaves an empty
    query log empty; no audit record is produced. *)
Lemma no_audit_record_is_written :
  ~ exists record,
      query_log
        (snd (steam_calculator demo_engine
                (rankine_request "0.05" "100" "450" "85" "85") empty_world))
      = query_log empty_world ++ [record].
Proof. intros [record H]. vm_compute in H. discriminate H. Qed.

(** When both checks would fail the first one reports: condenser 10 bar,
    boiler 5 bar, pump efficiency 0% is rejected with the Physics Violation
    message. *)
Lemma both_checks_fail_reports_pressure :
  let request := rankine_request "10" "5" "450" "0" "85" in
  let w' := snd (handle_rankine_cycle demo_engine request empty_world) in
  rankine_inputs request 10 5 450 0 85
  /\ (0 / 100 <=? 0)%float = true
  /\ context w' !! "error" = Some (VStr physics_violation)
  /\ context w' !! "error" <> Some (VStr invalid_efficiency).
Proof.
  cbv zeta. split; [vm_compute; repeat split|].
  split; [vm_compute; reflexivity|].
  split; [vm_compute; reflexivity|].
  vm_compute. discriminate.
Qed.

(** Boiler above condenser, pump efficiency 0%: the efficiency message and
    no engine call. *)
Lemma rankine_preconditions_fail_fast_witness :
  let request := rankine_request "0.05" "100" "450" "0" "85" in
  let w' := snd (handle_rankine_cycle demo_engine request empty_world) in
  rankine_inputs request 0.05 100 450 0 85
  /\ (100 <=? 0.05)%float = false
  /\ ((0 / 100 <=? 0) || (85 / 100 <=? 0)
      || (1 <? 0 / 100) || (1 <? 85 / 100))%float = true
  /\ context w' = <["error" := VStr invalid_efficiency]> (context empty_world)
  /\ engine_calls w' = engine_calls empty_world.
Proof.
  cbv zeta.
  assert (Hi : rankine_inputs (rankine_request "0.05" "100" "450" "0" "85")
                 0.05 100 450 0 85) by (vm_compute; repeat split).
  assert (Hp : (100 <=? 0.05)%float = false) by (vm_compute; reflexivity).
  assert (He : ((0 / 100 <=? 0) || (85 / 100 <=? 0)
                || (1 <? 0 / 100) || (1 <? 85 / 100))%float = true)
    by (vm_compute; reflexivity).
  exact (conj Hi (conj Hp (conj He
    (proj2 (rankine_preconditions_fail_fast demo_engine _ empty_world
              _ _ _ _ _ Hi) Hp He)))).
Defined.

(** C3, counterexample: the temperature unit f is not a recognized tag,
    yet nothing fails: 300 is passed to the engine as kelvin. *)
Lemma unknown_temperature_unit_is_kelvin :
  let request := state_point_request "1" "300" "bar" "f" in
  let w' := snd (handle_state_point demo_engine request empty_world) in
  POST request !! "t_unit" = Some "f"
  /\ no_error w'
  /\ context w' !! "success" = Some (VBool true)
  /\ engine_calls w' = [IAPWS.PT 0.1 300].
Proof. cbv zeta. unfold no_error. vm_compute. repeat split. Qed.

(** A pressure in psi: the generic error message and no engine call. *)
Lemma unit_conversion_fallthrough_witness :
  let request := state_point_request "1" "400" "psi" "k" in
  let w' := snd (handle_state_point demo_engine request empty_world) in
  state_point_inputs request 1 400
  /\ context w' =
     <["error" := VStr "An unexpected calculation error occurred. Verify your inputs."]>
       (context empty_world)
  /\ engine_calls w' = engine_calls empty_world.
Proof.
  cbv zeta.
  assert (Hi : state_point_inputs (state_point_request "1" "400" "psi" "k") 1 400)
    by (vm_compute; repeat split).
  refine (conj Hi
    (proj1 (unit_conversion_fallthrough demo_engine _ empty_world _ _ Hi) _ _ _));
    vm_compute; discriminate.
Defined.

(** C7, counterexample: the engine reports x = 0.123456 for a two-phase
    state; the quality shown is 0.1235, not the engine's x. *)
Lemma wet_steam_quality_is_rounded :
  let request := state_point_request "1" "400" "bar" "k" in
  let w' := snd (handle_state_point demo_engine request empty_world) in
  exists steam,
    demo_engine (IAPWS.PT 0.1 400) = Return steam
    /\ IAPWS.phase steam = "Two-phase"
    /\ IAPWS.x steam = Some 0.123456%float
    /\ no_error w'
    /\ context w' !! "x" = Some (VFloat 0.1235)
    /\ context w' !! "x" <> Some (VFloat 0.123456).
Proof.
  cbv zeta. eexists. split; [reflexivity|].
  split; [reflexivity|]. split; [reflexivity|].
  split; [vm_compute; reflexivity|].
  assert (H : context (snd (handle_state_point demo_engine
                (state_point_request "1" "400" "bar" "k") empty_world)) !! "x"
              = Some (VFloat 0.1235)) by (vm_compute; reflexivity).
  split; [exact H|]. rewrite H.
  assert (Hne : 0.1235%float <> 0.123456%float)
    by (apply float_neq; vm_compute; reflexivity).
  congruence.
Qed.

(** 1 bar and 400 K resolve to a two-phase state of the stand-in engine. *)
Lemma state_point_classification_witness :
  let request := state_point_request "1" "400" "bar" "k" in
  let w' := snd (handle_state_point demo_engine request empty_world) in
  let steam := demo_state true (IAPWS.PT 0.1 400) in
  state_point_inputs request 1 400
  /\ pressure_to_mpa (POST request !! "p_unit") 1 = Some 0.1%float
  /\ no_error w'
  /\ IAPWS.phase steam = "Two-phase"
  /\ exists q s2 s4 s6 s8,
        IAPWS.x steam = Some q
        /\ demo_engine (IAPWS.Px 0.1 0.2) = Return s2
        /\ demo_engine (IAPWS.Px 0.1 0.4) = Return s4
        /\ demo_engine (IAPWS.Px 0.1 0.6) = Return s6
        /\ demo_engine (IAPWS.Px 0.1 0.8) = Return s8
        /\ context w' !! "state" = Some (VStr "Wet Steam")
        /\ context w' !! "x" = Some (VFloat (round q 4))
        /\ context w' !! "intermediate_data" =
           Some (VList
                   [VDict [("x", VFloat 0.2);
                           ("h", VFloat (round (IAPWS.h s2) 2));
                           ("s", VFloat (round (IAPWS.s s2) 4));
                           ("v", VFloat (round (IAPWS.v s2) 5))];
                    VDict [("x", VFloat 0.4);
                           ("h", VFloat (round (IAPWS.h s4) 2));
                           ("s", VFloat (round (IAPWS.s s4) 4));
                           ("v", VFloat (round (IAPWS.v s4) 5))];
                    VDict [("x", VFloat 0.6);
                           ("h", VFloat (round (IAPWS.h s6) 2));
                           ("s", VFloat (round (IAPWS.s s6) 4));
                           ("v", VFloat (round (IAPWS.v s6) 5))];
                    VDict [("x", VFloat 0.8);
                           ("h", VFloat (round (IAPWS.h s8) 2));
                           ("s", VFloat (round (IAPWS.s s8) 4));
                           ("v", VFloat (round (IAPWS.v s8) 5))]])
        /\ engine_calls w' =
           engine_calls empty_world ++
           [IAPWS.PT 0.1 (temperature_to_kelvin (POST request !! "t_unit") 400);
            IAPWS.Px 0.1 0.2; IAPWS.Px 0.1 0.4;
            IAPWS.Px 0.1 0.6; IAPWS.Px 0.1 0.8].
Proof.
  cbv zeta.
  assert (Hi : state_point_inputs (state_point_request "1" "400" "bar" "k") 1 400)
    by (vm_compute; repeat split).
  assert (Hu : pressure_to_mpa
                 (POST (state_point_request "1" "400" "bar" "k") !! "p_unit") 1
               = Some 0.1%float) by (vm_compute; reflexivity).
  assert (Hs : demo_engine
                 (IAPWS.PT 0.1
                    (temperature_to_kelvin
                       (POST (state_point_request "1" "400" "bar" "k") !! "t_unit")
                       400))
               = Return (demo_state true (IAPWS.PT 0.1 400)))
    by (vm_compute; reflexivity).
  assert (Hok : no_error
                  (snd (handle_state_point demo_engine
                          (state_point_request "1" "400" "bar" "k") empty_world)))
    by (vm_compute; reflexivity).
  assert (Hph : IAPWS.phase (demo_state true (IAPWS.PT 0.1 400)) = "Two-phase")
    by (vm_compute; reflexivity).
  exact (conj Hi (conj Hu (conj Hok (conj Hph
    (proj2 (proj2 (state_point_classification demo_engine _ empty_world
                     _ _ Hi _ _ Hu Hs Hok)) Hph))))).
Defined.

(** C4, counterexample: the engine resolves State 2 as a Liquid state that
    carries x = 0, as every state of the [iapws] package does; the quality
    of State 2 is then reported as the number 0, not as N/A. *)
Lemma liquid_state_reports_numeric_quality :
  let request := rankine_request "0.05" "100" "450" "85" "85" in
  let w' := snd (handle_rankine_cycle demo_engine request empty_world) in
  exists c row2,
    cycle_states demo_engine (0.05 / 10) (100 / 10) (450 + 273.15)
      (85 / 100) (85 / 100) = Some c
    /\ no_error w'
    /\ IAPWS.phase (state2 c) = "Liquid"
    /\ context w' !! "state2" = Some (VDict row2)
    /\ dict_get "phase" row2 = Some (VStr "Liquid")
    /\ dict_get "x" row2 = Some (VFloat 0)
    /\ dict_get "x" row2 <> Some (VStr "N/A").
Proof.
  cbv zeta. eexists _, _.
  split; [vm_compute; reflexivity|].
  split; [vm_compute; reflexivity|].
  split; [vm_compute; reflexivity|].
  split; [vm_compute; reflexivity|].
  split; [vm_compute; reflexivity|].
  split; [vm_compute; reflexivity|].
  vm_compute. discriminate.
Qed.

(** With an engine whose single-phase states carry no x, State 2 (Liquid)
    reports N/A and State 4 (Two-phase) its rounded x. *)
Lemma rankine_quality_follows_attribute_witness :
  let request := rankine_request "0.05" "100" "450" "85" "85" in
  let w' := snd (handle_rankine_cycle bare_engine request empty_world) in
  rankine_inputs request 0.05 100 450 85 85
  /\ no_error w'
  /\ exists c row2 row4,
      cycle_states bare_engine (0.05 / 10) (100 / 10) (450 + 273.15)
        (85 / 100) (85 / 100) = Some c
      /\ context w' !! "state2" = Some (VDict row2)
      /\ context w' !! "state4" = Some (VDict row4)
      /\ dict_get "phase" row2 = Some (VStr (IAPWS.phase (state2 c)))
      /\ dict_get "phase" row4 = Some (VStr (IAPWS.phase (state4 c)))
      /\ dict_get "x" row2 =
         Some match IAPWS.x (state2 c) with
              | Some q => VFloat (round q 4)
              | None => VStr "N/A"
              end
      /\ dict_get "x" row4 =
         Some match IAPWS.x (state4 c) with
              | Some q => VFloat (round q 4)
              | None => VStr "N/A"
              end.
Proof.
  cbv zeta.
  assert (Hi : rankine_inputs (rankine_request "0.05" "100" "450" "85" "85")
                 0.05 100 450 85 85) by (vm_compute; repeat split).
  assert (Hok : no_error
                  (snd (handle_rankine_cycle bare_engine
                          (rankine_request "0.05" "100" "450" "85" "85")
                          empty_world))) by (vm_compute; reflexivity).
  exact (conj Hi (conj Hok
    (rankine_quality_follows_attribute bare_engine _ empty_world
       _ _ _ _ _ Hi Hok))).
Defined.

(** C5, counterexample: heat input is positive and net work divided by heat
    input is about 0.36; the efficiency reported is 36.08. *)
Lemma efficiency_is_a_rounded_percentage :
  let request := rankine_request "0.05" "100" "450" "85" "85" in
  let w' := snd (handle_rankine_cycle demo_engine request empty_world) in
  exists c,
    cycle_states demo_engine (0.05 / 10) (100 / 10) (450 + 273.15)
      (85 / 100) (85 / 100) = Some c
    /\ let q_in := (IAPWS.h (state3 c) - IAPWS.h (state2 c))%float in
       let w_net := (IAPWS.h (state3 c) - IAPWS.h (state4 c)
                     - (IAPWS.h (state2 c) - IAPWS.h (state1 c)))%float in
       no_error w'
       /\ (0 <? q_in)%float = true
       /\ (w_net / q_in <? 0.37)%float = true
       /\ context w' !! "efficiency" = Some (VFloat 36.08)
       /\ context w' !! "efficiency" <> Some (VFloat (w_net / q_in)).
Proof.
  cbv zeta. eexists.
  split; [vm_compute; reflexivity|].
  split; [vm_compute; reflexivity|].
  split; [vm_compute; reflexivity|].
  split; [vm_compute; reflexivity|].
  assert (H : context (snd (handle_rankine_cycle demo_engine
                (rankine_request "0.05" "100" "450" "85" "85") empty_world))
              !! "efficiency" = Some (VFloat 36.08)) by (vm_compute; reflexivity).
  split; [exact H|]. rewrite H.
  match goal with |- _ <> Some (VFloat ?f) =>
    assert (Hne : 36.08%float <> f)
      by (apply float_neq; vm_compute; reflexivity)
  end.
  congruence.
Qed.

(** A run with negative heat input: a pump efficiency of 1% puts State 2
    at h = 1140, above the liquid State 3 at h = 420; the run succeeds and
    reports the integer 0. *)
Lemma thermal_efficiency_reported_witness :
  let request := rankine_request "0.05" "100" "50" "1" "85" in
  let w' := snd (handle_rankine_cycle demo_engine request empty_world) in
  rankine_inputs request 0.05 100 50 1 85
  /\ exists c,
      cycle_states demo_engine (0.05 / 10) (100 / 10) (50 + 273.15)
        (1 / 100) (85 / 100) = Some c
      /\ (IAPWS.h (state3 c) - IAPWS.h (state2 c) <=? 0)%float = true
      /\ context w' !! "success" = Some (VBool true)
      /\ context w' !! "error" = None
      /\ context w' !! "efficiency" = Some (VInt 0).
Proof.
  cbv zeta.
  set (request := rankine_request "0.05" "100" "50" "1" "85").
  assert (Hi : rankine_inputs request 0.05 100 50 1 85)
    by (vm_compute; repeat split).
  assert (Hp : (100 <=? 0.05)%float = false) by (vm_compute; reflexivity).
  assert (He : ((1 / 100 <=? 0) || (85 / 100 <=? 0)
                || (1 <? 1 / 100) || (1 <? 85 / 100))%float = false)
    by (vm_compute; reflexivity).
  assert (Hz : (50 + 273.15 =? 0)%float = false) by (vm_compute; reflexivity).
  split; [exact Hi|].
  destruct (cycle_states demo_engine (0.05 / 10) (100 / 10) (50 + 273.15)
              (1 / 100) (85 / 100)) as [c|] eqn:Hc; [|vm_compute in Hc; discriminate].
  exists c.
  assert (Hq : (IAPWS.h (state3 c) - IAPWS.h (state2 c) <=? 0)%float = true).
  { vm_compute in Hc. injection Hc as <-. vm_compute. reflexivity. }
  assert (Hx : IAPWS.phase (state3 c) = "Gas" \/ is_Some (IAPWS.x (state3 c))).
  { vm_compute in Hc. injection Hc as <-. right. eexists. reflexivity. }
  destruct (thermal_efficiency_reported demo_engine request empty_world
              _ _ _ _ _ Hi c Hp He Hc Hz Hx) as (Hsucc & Herr & Hzero & _).
  split; [reflexivity|]. split; [exact Hq|]. split; [exact Hsucc|].
  split; [exact Herr|]. exact (Hzero Hq).
Defined.

(** A run that passes both checks makes the six lookups of the schedule. *)
Lemma rankine_lookup_order_witness :
  let request := rankine_request "0.05" "100" "450" "85" "85" in
  let w' := snd (handle_rankine_cycle demo_engine request empty_world) in
  rankine_inputs request 0.05 100 450 85 85
  /\ (100 <=? 0.05)%float = false
  /\ ((85 / 100 <=? 0) || (85 / 100 <=? 0)
      || (1 <? 85 / 100) || (1 <? 85 / 100))%float = false
  /\ engine_calls w' =
     engine_calls empty_world ++
     cycle_schedule demo_engine (0.05 / 10) (100 / 10) (450 + 273.15)
       (85 / 100) (85 / 100)
  /\ length (cycle_schedule demo_engine (0.05 / 10) (100 / 10) (450 + 273.15)
               (85 / 100) (85 / 100)) = 6%nat.
Proof.
  cbv zeta.
  assert (Hi : rankine_inputs (rankine_request "0.05" "100" "450" "85" "85")
                 0.05 100 450 85 85) by (vm_compute; repeat split).
  assert (Hp : (100 <=? 0.05)%float = false) by (vm_compute; reflexivity).
  assert (He : ((85 / 100 <=? 0) || (85 / 100 <=? 0)
                || (1 <? 85 / 100) || (1 <? 85 / 100))%float = false)
    by (vm_compute; reflexivity).
  refine (conj Hi (conj Hp (conj He (conj
    (proj1 (rankine_lookup_order demo_engine _ empty_world _ _ _ _ _ Hi Hp He))
    _)))).
  vm_compute. reflexivity.
Defined.

(** A boiler temperature of 200 degrees Celsius, for which the stand-in
    engine resolves State 3 in the two-phase region. *)
Lemma state3_label_is_fixed_witness :
  let request := rankine_request "0.05" "100" "200" "85" "85" in
  let w' := snd (handle_rankine_cycle demo_engine request empty_world) in
  rankine_inputs request 0.05 100 200 85 85
  /\ no_error w'
  /\ exists c row3,
      cycle_states demo_engine (0.05 / 10) (100 / 10) (200 + 273.15)
        (85 / 100) (85 / 100) = Some c
      /\ context w' !! "state3" = Some (VDict row3)
      /\ dict_get "phase" row3 = Some (VStr "Superheated Steam")
      /\ (IAPWS.phase (state3 c) = "Gas" ->
          dict_get "x" row3 = Some (VStr "1 (sat. vapor)"))
      /\ (IAPWS.phase (state3 c) <> "Gas" ->
          exists q, IAPWS.x (state3 c) = Some q
                    /\ dict_get "x" row3 = Some (VFloat (round q 4))).
Proof.
  cbv zeta.
  assert (Hi : rankine_inputs (rankine_request "0.05" "100" "200" "85" "85")
                 0.05 100 200 85 85) by (vm_compute; repeat split).
  assert (Hok : no_error
                  (snd (handle_rankine_cycle demo_engine
                          (rankine_request "0.05" "100" "200" "85" "85")
                          empty_world))) by (vm_compute; reflexivity).
  exact (conj Hi (conj Hok
    (state3_label_is_fixed demo_engine _ empty_world _ _ _ _ _ Hi Hok))).
Defined.

(** State 3 of that run is in the two-phase region and still labelled
    Superheated Steam, with a numeric quality. *)
Example two_phase_state3_run :
  let request := rankine_request "0.05" "100" "200" "85" "85" in
  let w' := snd (handle_rankine_cycle demo_engine request empty_world) in
  resolved demo_engine (IAPWS.PT (100 / 10) (200 + 273.15))
    = Some (demo_state true (IAPWS.PT 10 473.15))
  /\ IAPWS.phase (demo_state true (IAPWS.PT 10 473.15)) = "Two-phase"
  /\ exists row3,
      context w' !! "state3" = Some (VDict row3)
      /\ dict_get "phase" row3 = Some (VStr "Superheated Steam")
      /\ dict_get "x" row3 = Some (VFloat 0.1235).
Proof.
  cbv zeta. split; [vm_compute; reflexivity|].
  split; [vm_compute; reflexivity|].
  eexists. split; [vm_compute; reflexivity|].
  split; vm_compute; reflexivity.
Qed.

(** C2: a pump efficiency entered as nan parses, and nan / 100 lies outside
    (0, 1], but it compares false with both bounds of line 132: the run is
    not rejected, and whatever the engine is, it is asked for State 1. *)
Theorem nan_efficiency_reaches_the_engine
    (IAPWS97 : IAPWS.query -> outcome IAPWS.state) (w : world) :
  let request := rankine_request "0.05" "100" "450" "nan" "85" in
  let w' := snd (handle_rankine_cycle IAPWS97 request w) in
  rankine_inputs request 0.05 100 450 nan 85
  /\ (0 <? nan / 100)%float = false
  /\ ((nan / 100 <=? 0) || (1 <? nan / 100))%float = false
  /\ (exists rest, engine_calls w' = engine_calls w ++ IAPWS.Px (0.05 / 10) 0 :: rest)
  /\ engine_calls w' <> engine_calls w.
Proof.
  cbv zeta.
  set (request := rankine_request "0.05" "100" "450" "nan" "85").
  assert (Hi : rankine_inputs request 0.05 100 450 nan 85)
    by (vm_compute; repeat split).
  assert (Hc : (100 <=? 0.05)%float = false
               /\ ((nan / 100 <=? 0) || (85 / 100 <=? 0)
                   || (1 <? nan / 100) || (1 <? 85 / 100))%float = false)
    by (split; vm_compute; reflexivity).
  assert (Hcalls : exists rest,
    engine_calls (snd (handle_rankine_cycle IAPWS97 request w)) =
    engine_calls w ++ IAPWS.Px (0.05 / 10) 0 :: rest).
  { rewrite rankine_calls.
    destruct (rankine_try_run IAPWS97 request w _ _ _ _ _ Hi Hc) as [-> _].
    unfold cycle_schedule. eexists. reflexivity. }
  split; [exact Hi|].
  split; [vm_compute; reflexivity|].
  split; [vm_compute; reflexivity|].
  split; [exact Hcalls|].
  destruct Hcalls as [rest ->]. intros H.
  apply (f_equal (@length _)) in H. rewrite length_app in H.
  cbn [length] in H. Lia.lia.
Qed.

(** With the stand-in engine the nan run even succeeds, after all six
    lookups. *)
Example nan_efficiency_passes_the_checks :
  let request := rankine_request "0.05" "100" "450" "nan" "85" in
  let w' := snd (handle_rankine_cycle demo_engine request empty_world) in
  rankine_inputs request 0.05 100 450 nan 85
  /\ no_error w'
  /\ length (engine_calls w') = 6%nat.
Proof.
  cbv zeta. split; [vm_compute; repeat split|].
  split; vm_compute; reflexivity.
Qed.

(** A step at 100 degrees with the stand-in engine appends to both branches;
    a step at 0 degrees, out of range for the bounded engine, appends to
    neither. *)
Lemma dome_branches_same_length_witness :
  fst (dome_step demo_engine ([], []) 100 empty_world) =
    Return ([point 0.5 (VInt 100)], [point 8.5 (VInt 100)])
  /\ bounded_engine (IAPWS.Tx (float_of_Z 0 + 273.15) 0) =
     Raised (NotImplementedError "Incoming out of bound")
  /\ fst (dome_step bounded_engine ([], []) 0 empty_world) = Return ([], []).
Proof.
  assert (Hb : bounded_engine (IAPWS.Tx (float_of_Z 0 + 273.15) 0) =
               Raised (NotImplementedError "Incoming out of bound"))
    by (vm_compute; reflexivity).
  split; [|split; [exact Hb|]].
  - exact (proj1 (proj1 (dome_branches_same_length demo_engine)
                    ([], []) 100 empty_world) _ _ eq_refl eq_refl).
  - exact (proj2 (proj1 (dome_branches_same_length bounded_engine)
                    ([], []) 0 empty_world) _ (or_introl Hb)).
Defined.

(** An out-of-range engine answer drops the sample of that temperature from
    both branches: here 0 degrees and the steps above 326.85 degrees. *)
Example bounded_engine_dome :
  exists liquid_line vapor_line,
    fst (generate_saturation_dome bounded_engine empty_world)
      = Return (liquid_line, vapor_line)
    /\ length liquid_line = 33%nat
    /\ length vapor_line = 33%nat.
Proof. eexists _, _. split; [vm_compute; reflexivity|]. split; reflexivity. Qed.

(** * Further properties of the views *)

(** ** Frame lemmas: context keys *)

Lemma writes_only_ret {A} keys (a : A) : writes_only keys (ret a).
Proof. intros w k _. reflexivity. Qed.

Lemma writes_only_lift {A} keys (o : outcome A) : writes_only keys (lift o).
Proof. intros w k _. reflexivity. Qed.

Lemma writes_only_engine IAPWS97 keys q : writes_only keys (engine IAPWS97 q).
Proof. intros w k _. reflexivity. Qed.

Lemma writes_only_bind {A B} keys (m : M A) (f : A -> M B) :
  writes_only keys m -> (forall a, writes_only keys (f a)) ->
  writes_only keys (bind m f).
Proof.
  intros Hm Hf w k Hk. unfold bind. specialize (Hm w k Hk).
  destruct (m w) as [[a|e] w1]; simpl in *; [|assumption].
  rewrite (Hf a w1 k Hk). assumption.
Qed.

Lemma writes_only_try {A} keys (m : M A) (h : exn -> M A) :
  writes_only keys m -> (forall e, writes_only keys (h e)) ->
  writes_only keys (try_except m h).
Proof.
  intros Hm Hh w k Hk. unfold try_except. specialize (Hm w k Hk).
  destruct (m w) as [[a|e] w1]; simpl in *; [assumption|].
  rewrite (Hh e w1 k Hk). assumption.
Qed.

Lemma writes_only_for_each {A S} keys (l : list A) (body : S -> A -> M S) :
  (forall acc a, writes_only keys (body acc a)) ->
  forall acc, writes_only keys (for_each l body acc).
Proof.
  intros Hb. induction l as [|a l IH]; intros acc; simpl.
  - apply writes_only_ret.
  - apply writes_only_bind; auto.
Qed.

Lemma writes_only_if {A} keys (b : bool) (m1 m2 : M A) :
  writes_only keys m1 -> writes_only keys m2 ->
  writes_only keys (if b then m1 else m2).
Proof. destruct b; auto. Qed.

Lemma writes_only_context_set keys k v :
  In k keys -> writes_only keys (context_set k v).
Proof.
  intros Hin w k' Hk'. simpl. apply lookup_insert_ne. intros ->. contradiction.
Qed.

Lemma dict_get_not_in k d : ~ In k (map fst d) -> dict_get k d = None.
Proof.
  induction d as [|[k' v] d IH]; simpl; [reflexivity|]. intros Hn.
  destruct (String.eqb_spec k k') as [->|_]; [tauto|]. apply IH. tauto.
Qed.

Lemma writes_only_context_update keys d :
  incl (map fst d) keys -> writes_only keys (context_update d).
Proof.
  intros Hin w k Hk. simpl. rewrite lookup_dict_update.
  rewrite dict_get_not_in; [reflexivity|].
  rewrite map_rev, <- in_rev. intros H. apply Hk, Hin, H.
Qed.

Ltac key_in := cbn [In map fst] in *; tauto.

Ltac frame IAPWS97 :=
  repeat first
    [ apply writes_only_ret | apply writes_only_lift
    | apply (writes_only_engine IAPWS97)
    | apply writes_only_context_set; key_in
    | apply writes_only_context_update; intros ? ?; key_in
    | apply writes_only_for_each; intros ? ?
    | apply writes_only_if
    | apply writes_only_bind; [ | intros ? ] ].

(** Lookups in a context built by insertions over a dict update. *)
Ltac after_failure :=
  repeat split;
  repeat first [ rewrite lookup_insert_eq
               | rewrite lookup_insert_ne by discriminate
               | rewrite lookup_dict_update ];
  eauto.

Ltac lookup_failed E :=
  eexists _, _; split; [reflexivity|]; split; [exact E|];
  rewrite <- ?app_assoc; reflexivity.

Section MoreProperties.
Variable IAPWS97 : IAPWS.query -> outcome IAPWS.state.

Lemma writes_only_rankine request :
  writes_only rankine_keys (handle_rankine_cycle IAPWS97 request).
Proof.
  unfold handle_rankine_cycle, rankine_cycle_try, rankine_keys, rankine_context.
  apply writes_only_try.
  - frame IAPWS97.
  - intros e. unfold rankine_except.
    destruct e; try destruct (contains _ _);
      apply writes_only_context_set; key_in.
Qed.

Lemma writes_only_state_point request :
  writes_only state_point_keys (handle_state_point IAPWS97 request).
Proof.
  unfold handle_state_point, state_point_try, intermediate_step, state_point_keys,
    state_point_context.
  apply writes_only_try.
  - frame IAPWS97.
  - intros e. unfold state_point_except.
    destruct e; try destruct (contains _ _);
      apply writes_only_context_set; key_in.
Qed.
Lemma rankine_except_returns e w : fst (rankine_except e w) = Return tt.
Proof. unfold rankine_except. destruct e; try destruct (contains _ _); reflexivity. Qed.

Lemma state_point_except_returns e w : fst (state_point_except e w) = Return tt.
Proof.
  unfold state_point_except. destruct e; try destruct (contains _ _); reflexivity.
Qed.

Lemma handle_rankine_returns request w :
  fst (handle_rankine_cycle IAPWS97 request w) = Return tt.
Proof.
  unfold handle_rankine_cycle, try_except.
  destruct (rankine_cycle_try IAPWS97 request w) as [[[]|e] w1];
    [reflexivity | apply rankine_except_returns].
Qed.

Lemma handle_state_point_returns request w :
  fst (handle_state_point IAPWS97 request w) = Return tt.
Proof.
  unfold handle_state_point, try_except.
  destruct (state_point_try IAPWS97 _ _ _ _ w) as [[[]|e] w1];
    [reflexivity | apply state_point_except_returns].
Qed.

Lemma view_run request w :
  steam_calculator IAPWS97 request w =
  (Return {| template := "index.html"; data := context (view_world IAPWS97 request w) |},
   view_world IAPWS97 request w).
Proof.
  unfold steam_calculator, view_world.
  unfold bind at 1. unfold new_context.
  unfold bind at 1. rewrite dome_run.
  cbv beta iota zeta delta [bind context_set context engine_calls query_log].
  cbn [fst snd].
  fold (dome_world IAPWS97 w).
  destruct (String.eqb (method request) "POST").
  - destruct (String.eqb (default "state_point" (POST request !! "mode"))
                "rankine_cycle").
    + fold (with_active_mode "rankine" (dome_world IAPWS97 w)).
      pose proof (handle_rankine_returns request
                    (with_active_mode "rankine" (dome_world IAPWS97 w))) as Hr.
      destruct (handle_rankine_cycle IAPWS97 request _) as [o wf].
      simpl in Hr. subst o. reflexivity.
    + fold (with_active_mode "state" (dome_world IAPWS97 w)).
      pose proof (handle_state_point_returns request
                    (with_active_mode "state" (dome_world IAPWS97 w))) as Hr.
      destruct (handle_state_point IAPWS97 request _) as [o wf].
      simpl in Hr. subst o. reflexivity.
  - reflexivity.
Qed.

(** ** The Rankine handler on any request *)

Lemma float_of_str_raises s e :
  float_of_str s = Raised e ->
  e = ValueError ("could not convert string to float: '" +:+ s +:+ "'").
Proof.
  unfold float_of_str.
  destruct (match drop_underscores _ _ with Some _ => _ | None => _ end);
    [discriminate | intros [= <-]; reflexivity].
Qed.

Lemma float_of_field_or_raises v d e :
  float_of_field_or v d = Raised e ->
  exists s, v = Some s
            /\ e = ValueError ("could not convert string to float: '" +:+ s +:+ "'").
Proof.
  destruct v as [s|]; simpl; [|discriminate].
  intros H. exists s. split; [reflexivity | exact (float_of_str_raises _ _ H)].
Qed.

(** Either all five fields read as numbers, or the [try] suite stops at the
    first that does not, before any engine call. *)
Lemma rankine_inputs_or_raise request w :
  (exists p_low p_high t_high pump_pct turbine_pct,
      rankine_inputs request p_low p_high t_high pump_pct turbine_pct)
  \/ (exists k s,
        In k ["p_cond"; "p_boiler"; "t_boiler"; "pump_eff"; "turbine_eff"]
        /\ POST request !! k = Some s
        /\ rankine_cycle_try IAPWS97 request w =
           (Raised (ValueError ("could not convert string to float: '" +:+ s +:+ "'")),
            w)).
Proof.
  unfold rankine_inputs, rankine_cycle_try.
  destruct (float_of_field_or (POST request !! "p_cond") 0.05) as [a1|e] eqn:E1.
  2:{ right. destruct (float_of_field_or_raises _ _ _ E1) as (s & Hs & ->).
      exists "p_cond", s. run. cbn [In]. tauto. }
  destruct (float_of_field_or (POST request !! "p_boiler") 10) as [a2|e] eqn:E2.
  2:{ right. destruct (float_of_field_or_raises _ _ _ E2) as (s & Hs & ->).
      exists "p_boiler", s. run. cbn [In]. tauto. }
  destruct (float_of_field_or (POST request !! "t_boiler") 450) as [a3|e] eqn:E3.
  2:{ right. destruct (float_of_field_or_raises _ _ _ E3) as (s & Hs & ->).
      exists "t_boiler", s. run. cbn [In]. tauto. }
  destruct (float_of_field_or (POST request !! "pump_eff") 85) as [a4|e] eqn:E4.
  2:{ right. destruct (float_of_field_or_raises _ _ _ E4) as (s & Hs & ->).
      exists "pump_eff", s. run. cbn [In]. tauto. }
  destruct (float_of_field_or (POST request !! "turbine_eff") 85) as [a5|e] eqn:E5.
  2:{ right. destruct (float_of_field_or_raises _ _ _ E5) as (s & Hs & ->).
      exists "turbine_eff", s. run. cbn [In]. tauto. }
  left. exists a1, a2, a3, a4, a5. tauto.
Qed.

Lemma rankine_except_world e w :
  exists msg,
    rankine_except e w =
    (Return tt, {| context := <["error" := VStr msg]> (context w);
                   engine_calls := engine_calls w; query_log := query_log w |}).
Proof.
  unfold rankine_except.
  destruct e; try destruct (contains _ _); eexists; reflexivity.
Qed.

(** The two ways a Rankine run can end. *)
Lemma rankine_outcomes request w :
  let w' := snd (handle_rankine_cycle IAPWS97 request w) in
  (exists msg, context w' = <["error" := VStr msg]> (context w))
  \/ (exists p_low p_high t_high pump_pct turbine_pct c ratio x3,
        rankine_inputs request p_low p_high t_high pump_pct turbine_pct
        /\ cycle_states IAPWS97 (p_low / 10) (p_high / 10) (t_high + 273.15)
             (pump_pct / 100) (turbine_pct / 100) = Some c
        /\ truediv (IAPWS.T (state1 c)) (t_high + 273.15) = Return ratio
        /\ let w_pump := (IAPWS.h (state2 c) - IAPWS.h (state1 c))%float in
           let q_in := (IAPWS.h (state3 c) - IAPWS.h (state2 c))%float in
           let w_turbine := (IAPWS.h (state3 c) - IAPWS.h (state4 c))%float in
           let w_net := (w_turbine - w_pump)%float in
           context w' =
           dict_update
             (rankine_context p_low p_high t_high (pump_pct / 100) (turbine_pct / 100)
                (state1 c) (state2 c) (state3 c) (state4 c) x3
                w_pump q_in w_turbine w_net
                (if (0 <? q_in)%float then VFloat (w_net / q_in * 100) else VInt 0)
                ((1 - ratio) * 100))
             (context w)).
Proof.
  intros w'. subst w'.
  destruct (rankine_inputs_or_raise request w)
    as [(p_low & p_high & t_high & pump_pct & turbine_pct & Hi)
       |(k & s & _ & _ & Hr)].
  2:{ left. unfold handle_rankine_cycle, try_except. rewrite Hr.
      destruct (rankine_except_world
                  (ValueError ("could not convert string to float: '" +:+ s +:+ "'")) w)
        as [msg ->]. exists msg. reflexivity. }
  destruct (p_high <=? p_low)%float eqn:Hp.
  { left. rewrite (proj1 (rankine_rejects IAPWS97 _ w _ _ _ _ _ Hi) Hp).
    eexists. reflexivity. }
  destruct ((pump_pct / 100 <=? 0) || (turbine_pct / 100 <=? 0)
            || (1 <? pump_pct / 100) || (1 <? turbine_pct / 100))%float eqn:He.
  { left. rewrite (proj2 (rankine_rejects IAPWS97 _ w _ _ _ _ _ Hi) Hp He).
    eexists. reflexivity. }
  destruct (rankine_try_run IAPWS97 _ w _ _ _ _ _ Hi (conj Hp He))
    as [_ [[[e Hr] Hctx]|[Hr (c & ratio & x3 & Hs & Hd & _ & Hc)]]].
  - left. unfold handle_rankine_cycle, try_except.
    destruct (rankine_cycle_try IAPWS97 request w) as [o w1].
    simpl in Hr, Hctx. subst o.
    destruct (rankine_except_world e w1) as [msg ->].
    exists msg. simpl. rewrite Hctx. reflexivity.
  - right. exists p_low, p_high, t_high, pump_pct, turbine_pct, c, ratio, x3.
    split; [exact Hi|]. split; [exact Hs|]. split; [exact Hd|].
    unfold handle_rankine_cycle, try_except.
    destruct (rankine_cycle_try IAPWS97 request w) as [o w1].
    simpl in Hr, Hc. subst o. exact Hc.
Qed.

Lemma rankine_all_or_nothing_helper request w :
  let w' := snd (handle_rankine_cycle IAPWS97 request w) in
  (exists msg, context w' = <["error" := VStr msg]> (context w))
  \/ (context w' !! "success" = Some (VBool true)
      /\ context w' !! "rankine_cycle" = Some (VBool true)
      /\ context w' !! "error" = context w !! "error").
Proof.
  destruct (rankine_outcomes request w) as [H|H]; [left; exact H|].
  right.
  destruct H as (p_low & p_high & t_high & pump_pct & turbine_pct & c & ratio
                 & x3 & _ & _ & _ & Hc).
  cbv zeta in Hc. cbv zeta. rewrite Hc, !lookup_dict_update. repeat split.
Qed.

(** X6: a Rankine run either fails, and then the context is the one it
    started from plus an error message, with no partial result; or it
    stores success and rankine_cycle as true and adds no error. *)
Theorem rankine_all_or_nothing request w :
  let w' := snd (handle_rankine_cycle IAPWS97 request w) in
  (exists msg, context w' = <["error" := VStr msg]> (context w))
  \/ (context w' !! "success" = Some (VBool true)
      /\ context w' !! "rankine_cycle" = Some (VBool true)
      /\ context w' !! "error" = context w !! "error").
Proof. apply rankine_all_or_nothing_helper. Qed.

(** X7: when one of the five Rankine form fields is present and is not a
    number, no engine lookup is made and the error message is Python's
    conversion message for the first such field, shown as it is (the fields
    being plain text, so that the message quotes them unchanged). *)
Theorem rankine_non_numeric_field request w k s e :
  In k ["p_cond"; "p_boiler"; "t_boiler"; "pump_eff"; "turbine_eff"] ->
  POST request !! k = Some s ->
  float_of_str s = Raised e ->
  plain_fields request ["p_cond"; "p_boiler"; "t_boiler"; "pump_eff"; "turbine_eff"] ->
  let w' := snd (handle_rankine_cycle IAPWS97 request w) in
  engine_calls w' = engine_calls w
  /\ exists k' s',
      In k' ["p_cond"; "p_boiler"; "t_boiler"; "pump_eff"; "turbine_eff"]
      /\ POST request !! k' = Some s'
      /\ context w' =
         <["error" := VStr ("could not convert string to float: '" +:+ s' +:+ "'")]>
           (context w).
Proof.
  intros Hk Hs He _ w'. subst w'.
  destruct (rankine_inputs_or_raise request w)
    as [(p_low & p_high & t_high & pump_pct & turbine_pct & Hi)
       |(k' & s' & Hk' & Hs' & Hr)].
  - exfalso. destruct Hi as (H1 & H2 & H3 & H4 & H5).
    cbn [In] in Hk.
    destruct Hk as [<-|[<-|[<-|[<-|[<-|[]]]]]];
      rewrite Hs in *; simpl in *; congruence.
  - unfold handle_rankine_cycle, try_except. rewrite Hr. simpl.
    split; [reflexivity|]. exists k', s'. auto.
Qed.

Lemma truediv_return a b r :
  truediv a b = Return r -> (b =? 0)%float = false /\ r = (a / b)%float.
Proof.
  unfold truediv. destruct (b =? 0)%float; [discriminate|].
  intros [= <-]. split; reflexivity.
Qed.

Section RankineResult.

Variables (request : HttpRequest) (w : world).
Variables (p_low p_high t_high pump_pct turbine_pct : float).
Hypothesis H_inputs :
  rankine_inputs request p_low p_high t_high pump_pct turbine_pct.

Abbreviation w' := (snd (handle_rankine_cycle IAPWS97 request w)).
Abbreviation the_cycle :=
  (cycle_states IAPWS97 (p_low / 10) (p_high / 10) (t_high + 273.15)
     (pump_pct / 100) (turbine_pct / 100)).

(** A successful run, with the quotient of the Carnot reference. *)
Lemma rankine_success_context :
  no_error w' ->
  exists c x3,
    the_cycle = Some c
    /\ ((t_high + 273.15) =? 0)%float = false
    /\ let w_pump := (IAPWS.h (state2 c) - IAPWS.h (state1 c))%float in
       let q_in := (IAPWS.h (state3 c) - IAPWS.h (state2 c))%float in
       let w_turbine := (IAPWS.h (state3 c) - IAPWS.h (state4 c))%float in
       let w_net := (w_turbine - w_pump)%float in
       context w' =
       dict_update
         (rankine_context p_low p_high t_high (pump_pct / 100) (turbine_pct / 100)
            (state1 c) (state2 c) (state3 c) (state4 c) x3
            w_pump q_in w_turbine w_net
            (if (0 <? q_in)%float then VFloat (w_net / q_in * 100) else VInt 0)
            ((1 - IAPWS.T (state1 c) / (t_high + 273.15)) * 100))
         (context w).
Proof.
  intros Hok.
  destruct (rankine_no_error_inv IAPWS97 _ w _ _ _ _ _ H_inputs Hok)
    as (Hc & Hr & Hw).
  destruct (rankine_try_run IAPWS97 _ w _ _ _ _ _ H_inputs Hc)
    as [_ [[[e He] _]|[_ (c & ratio & x3 & H1 & H2 & _ & H4)]]].
  - rewrite Hr in He. discriminate.
  - destruct (truediv_return _ _ _ H2) as [Hnz ->].
    exists c, x3. rewrite Hw. auto.
Qed.

(** X10: a successful Rankine result reports pump work h2 - h1, heat input
    h3 - h2, turbine work h3 - h4 and net work (h3 - h4) - (h2 - h1), each
    rounded to two places, and the Carnot reference
    (1 - T1 / (t_boiler + 273.15)) * 100 rounded to two places, whose
    divisor is not zero. *)
Theorem rankine_derived_quantities :
  no_error w' ->
  exists c,
    the_cycle = Some c
    /\ let h1 := IAPWS.h (state1 c) in
       let h2 := IAPWS.h (state2 c) in
       let h3 := IAPWS.h (state3 c) in
       let h4 := IAPWS.h (state4 c) in
       context w' !! "w_pump" = Some (VFloat (round (h2 - h1) 2))
       /\ context w' !! "q_in" = Some (VFloat (round (h3 - h2) 2))
       /\ context w' !! "w_turbine" = Some (VFloat (round (h3 - h4) 2))
       /\ context w' !! "w_net" = Some (VFloat (round (h3 - h4 - (h2 - h1)) 2))
       /\ ((t_high + 273.15) =? 0)%float = false
       /\ context w' !! "carnot_eff" =
          Some (VFloat (round ((1 - IAPWS.T (state1 c) / (t_high + 273.15)) * 100) 2)).
Proof.
  intros Hok. destruct (rankine_success_context Hok) as (c & x3 & Hs & Hnz & Hctx).
  cbv zeta in Hctx. exists c. split; [exact Hs|]. cbv zeta.
  rewrite Hctx, !lookup_dict_update. repeat split. exact Hnz.
Qed.

(** X11: the plotted cycle of a successful Rankine result has five points,
    States 1, 2, 3, 4 and State 1 again, each with the state's entropy and
    its temperature in degrees Celsius. *)
Theorem rankine_cycle_points_closed :
  no_error w' ->
  exists c,
    the_cycle = Some c
    /\ let pt (st : IAPWS.state) (label : string) :=
         VDict [("x", VFloat (IAPWS.s st));
                ("y", VFloat (IAPWS.T st - 273.15));
                ("label", VStr label)] in
       context w' !! "cycle_points" =
       Some (VJson (VList [pt (state1 c) "State 1"; pt (state2 c) "State 2";
                           pt (state3 c) "State 3"; pt (state4 c) "State 4";
                           pt (state1 c) "State 1"])).
Proof.
  intros Hok. destruct (rankine_success_context Hok) as (c & x3 & Hs & Hnz & Hctx).
  cbv zeta in Hctx. exists c. split; [exact Hs|]. cbv zeta.
  rewrite Hctx, lookup_dict_update. reflexivity.
Qed.

(** X12: in a successful Rankine result every state row shows the pressure in
    bar (P * 10, three places), the temperature in degrees Celsius (two
    places), h (two places) and s (four places) of the resolved state, and
    State 1 is always shown as saturated liquid. *)
Theorem rankine_state_rows :
  no_error w' ->
  exists c row1 row2 row3 row4,
    the_cycle = Some c
    /\ context w' !! "state1" = Some (VDict row1)
    /\ context w' !! "state2" = Some (VDict row2)
    /\ context w' !! "state3" = Some (VDict row3)
    /\ context w' !! "state4" = Some (VDict row4)
    /\ dict_get "x" row1 = Some (VStr "0 (sat. liquid)")
    /\ dict_get "phase" row1 = Some (VStr "Saturated Liquid")
    /\ Forall2
         (fun row st =>
            dict_get "p" row = Some (VFloat (round (IAPWS.P st * 10) 3))
            /\ dict_get "T" row = Some (VFloat (round (IAPWS.T st - 273.15) 2))
            /\ dict_get "h" row = Some (VFloat (round (IAPWS.h st) 2))
            /\ dict_get "s" row = Some (VFloat (round (IAPWS.s st) 4)))
         [row1; row2; row3; row4]
         [state1 c; state2 c; state3 c; state4 c].
Proof.
  intros Hok. destruct (rankine_success_context Hok) as (c & x3 & Hs & Hnz & Hctx).
  cbv zeta in Hctx. exists c. eexists _, _, _, _. split; [exact Hs|].
  rewrite Hctx, !lookup_dict_update.
  split; [reflexivity|]. split; [reflexivity|].
  split; [reflexivity|]. split; [reflexivity|].
  split; [reflexivity|]. split; [reflexivity|].
  repeat constructor.
Qed.

(** X13: a successful Rankine result echoes the pressures and the temperature
    as entered, and each efficiency as its fraction times 100, which is not
    always the percentage entered. *)
Theorem rankine_echoes_inputs :
  no_error w' ->
  context w' !! "p_low" = Some (VFloat p_low)
  /\ context w' !! "p_high" = Some (VFloat p_high)
  /\ context w' !! "t_high" = Some (VFloat t_high)
  /\ context w' !! "pump_eff" = Some (VFloat (pump_pct / 100 * 100))
  /\ context w' !! "turbine_eff" = Some (VFloat (turbine_pct / 100 * 100)).
Proof.
  intros Hok. destruct (rankine_success_context Hok) as (c & x3 & Hs & Hnz & Hctx).
  cbv zeta in Hctx. rewrite Hctx, !lookup_dict_update. repeat split.
Qed.

Abbreviation the_schedule :=
  (cycle_schedule IAPWS97 (p_low / 10) (p_high / 10) (t_high + 273.15)
     (pump_pct / 100) (turbine_pct / 100)).

(** When a lookup fails, its exception is the one the [try] suite raises. *)
Lemma rankine_try_engine_failure :
  (p_high <=? p_low)%float = false ->
  ((pump_pct / 100 <=? 0) || (turbine_pct / 100 <=? 0)
   || (1 <? pump_pct / 100) || (1 <? turbine_pct / 100))%float = false ->
  the_cycle = None ->
  exists q e,
    last the_schedule = Some q
    /\ IAPWS97 q = Raised e
    /\ rankine_cycle_try IAPWS97 request w =
       (Raised e, {| context := context w;
                     engine_calls := engine_calls w ++ the_schedule;
                     query_log := query_log w |}).
Proof.
  intros Hp He Hnone.
  destruct H_inputs as
    (H_p_cond & H_p_boiler & H_t_boiler & H_pump_eff & H_turbine_eff).
  assert (Hnz : (pump_pct / 100 =? 0)%float = false).
  { apply leb_zero_false_nonzero.
    destruct (pump_pct / 100 <=? 0)%float; [discriminate He | reflexivity]. }
  destruct w as [ctx calls log].
  unfold rankine_cycle_try. run.
  rewrite H_p_cond, H_p_boiler, H_t_boiler, H_pump_eff, H_turbine_eff.
  run. rewrite Hp, He. run.
  unfold cycle_schedule, resolved.
  step_engine IAPWS97; [|lookup_failed E].
  step_engine IAPWS97; [|lookup_failed E0].
  rewrite truediv_nonzero by exact Hnz. run.
  step_engine IAPWS97; [|lookup_failed E1].
  step_engine IAPWS97; [|lookup_failed E2].
  step_engine IAPWS97; [|lookup_failed E3].
  step_engine IAPWS97; [|lookup_failed E4].
  exfalso. revert Hnone. unfold cycle_states, resolved.
  rewrite E; simpl. rewrite E0; simpl. rewrite E1; simpl.
  rewrite E2; simpl. rewrite E3; simpl. rewrite E4; simpl. discriminate.
Qed.

(** X8: when both checks pass and a lookup of the cycle fails, no further
    lookup is made, no result is stored, and the exception of that lookup
    decides the message: the range text for a NotImplementedError whose
    text contains out of bound in any case, Thermodynamic error and the
    text for another NotImplementedError, the bare text for a ValueError,
    and the generic text otherwise. *)
Theorem rankine_lookup_failure_message :
  (p_high <=? p_low)%float = false ->
  ((pump_pct / 100 <=? 0) || (turbine_pct / 100 <=? 0)
   || (1 <? pump_pct / 100) || (1 <? turbine_pct / 100))%float = false ->
  the_cycle = None ->
  exists q e,
    last the_schedule = Some q
    /\ IAPWS97 q = Raised e
    /\ engine_calls w' = engine_calls w ++ the_schedule
    /\ context w' =
       <["error" :=
           VStr match e with
                | NotImplementedError m =>
                    if contains "out of bound" (lower m)
                    then "The provided parameters exceed the valid limits of the IAPWS-97 formulations. Please verify that your Boiler Temperature isn't impossibly high or low."
                    else "Thermodynamic error: " +:+ m
                | ValueError m => m
                | _ => "An unexpected error occurred. Please ensure all inputs are valid numbers."
                end]> (context w).
Proof.
  intros Hp He Hnone.
  destruct (rankine_try_engine_failure Hp He Hnone) as (q & e & Hq & HE & Hr).
  exists q, e. split; [exact Hq|]. split; [exact HE|].
  unfold handle_rankine_cycle, try_except. rewrite Hr.
  unfold rankine_except.
  destruct e; try destruct (contains _ _); split; reflexivity.
Qed.

(** X9: when all six states resolve but the boiler temperature is -273.15
    degrees Celsius (the Carnot quotient divides by zero), or State 3 is
    not Gas and carries no attribute x, the run fails with the generic
    message after its six lookups and stores no result. *)
Theorem rankine_late_failure c :
  (p_high <=? p_low)%float = false ->
  ((pump_pct / 100 <=? 0) || (turbine_pct / 100 <=? 0)
   || (1 <? pump_pct / 100) || (1 <? turbine_pct / 100))%float = false ->
  the_cycle = Some c ->
  ((t_high + 273.15) =? 0)%float = true
  \/ (IAPWS.phase (state3 c) <> "Gas" /\ IAPWS.x (state3 c) = None) ->
  length (engine_calls (snd (handle_rankine_cycle IAPWS97 request w))) =
  (length (engine_calls w) + 6)%nat
  /\ context (snd (handle_rankine_cycle IAPWS97 request w)) =
     <["error" :=
         VStr "An unexpected error occurred. Please ensure all inputs are valid numbers."]>
       (context w).
Proof.
  intros Hp He Hsome Hlate.
  destruct H_inputs as
    (H_p_cond & H_p_boiler & H_t_boiler & H_pump_eff & H_turbine_eff).
  assert (Hnz : (pump_pct / 100 =? 0)%float = false).
  { apply leb_zero_false_nonzero.
    destruct (pump_pct / 100 <=? 0)%float; [discriminate He | reflexivity]. }
  revert Hsome. unfold cycle_states, resolved.
  destruct (IAPWS97 (IAPWS.Px _ 0)) as [st|] eqn:E; simpl; [|discriminate].
  destruct (IAPWS97 (IAPWS.Ps (p_high / 10) _)) as [st0|] eqn:E0;
    simpl; [|discriminate].
  destruct (IAPWS97 (IAPWS.Ph (p_high / 10) _)) as [st1|] eqn:E1;
    simpl; [|discriminate].
  destruct (IAPWS97 (IAPWS.PT _ _)) as [st2|] eqn:E2; simpl; [|discriminate].
  destruct (IAPWS97 (IAPWS.Ps (p_low / 10) _)) as [st3|] eqn:E3;
    simpl; [|discriminate].
  destruct (IAPWS97 (IAPWS.Ph (p_low / 10) _)) as [st4|] eqn:E4;
    simpl; [|discriminate].
  intros [= <-]. simpl in Hlate.
  destruct w as [ctx calls log].
  unfold handle_rankine_cycle, rankine_cycle_try. run.
  rewrite H_p_cond, H_p_boiler, H_t_boiler, H_pump_eff, H_turbine_eff.
  run. rewrite Hp, He. run.
  rewrite E. run. rewrite E0. run.
  rewrite truediv_nonzero by exact Hnz. run.
  rewrite E1. run. rewrite E2. run. rewrite E3. run. rewrite E4. run.
  assert (Heff : forall ww,
    (if (0 <? IAPWS.h st2 - IAPWS.h st1)%float
     then fun w0 : world =>
       match truediv (IAPWS.h st2 - IAPWS.h st4 - (IAPWS.h st1 - IAPWS.h st))
               (IAPWS.h st2 - IAPWS.h st1) with
       | Return a => (Return (VFloat (a * 100)), w0)
       | Raised e => (Raised e, w0)
       end
     else fun w0 : world => (Return (VInt 0), w0)) ww =
    (Return (if (0 <? IAPWS.h st2 - IAPWS.h st1)%float
             then VFloat ((IAPWS.h st2 - IAPWS.h st4 - (IAPWS.h st1 - IAPWS.h st))
                          / (IAPWS.h st2 - IAPWS.h st1) * 100)
             else VInt 0), ww)).
  { intros ww.
    destruct (0 <? IAPWS.h st2 - IAPWS.h st1)%float eqn:Hq; [|reflexivity].
    rewrite truediv_nonzero by (apply ltb_zero_true_nonzero; exact Hq).
    reflexivity. }
  rewrite Heff. clear Heff. run.
  unfold truediv.
  destruct ((t_high + 273.15) =? 0)%float eqn:Hz; run.
  { unfold rankine_except. run.
    split; [rewrite !length_app; simpl; Lia.lia | reflexivity]. }
  destruct Hlate as [Hlate|[Hng Hx]]; [discriminate|].
  apply String.eqb_neq in Hng. rewrite Hng. run.
  unfold getattr_x. rewrite Hx. run.
  unfold rankine_except. run.
  split; [rewrite !length_app; simpl; Lia.lia | reflexivity].
Qed.

End RankineResult.

(** ** The state-point handler: failures and other phases *)

(** X14: a state-point request without a pressure or without a temperature
    fails with the generic message, and one whose pressure or temperature
    is plain text that is not a number fails with Input Error and Python's
    conversion message; in all four cases no engine lookup is made and
    nothing else is stored. *)
Theorem state_point_bad_input request w :
  let w' := snd (handle_state_point IAPWS97 request w) in
  let failed msg :=
    context w' = <["error" := VStr msg]> (context w)
    /\ engine_calls w' = engine_calls w in
  let unexpected :=
    "An unexpected calculation error occurred. Verify your inputs." in
  let not_a_number s :=
    "Input Error: could not convert string to float: '" +:+ s +:+ "'" in
  (POST request !! "pressure" = None -> failed unexpected)
  /\ (forall s e,
        POST request !! "pressure" = Some s -> float_of_str s = Raised e ->
        plain_text s = true ->
        failed (not_a_number s))
  /\ (forall p,
        float_of_field (POST request !! "pressure") = Return p ->
        POST request !! "temperature" = None -> failed unexpected)
  /\ (forall p s e,
        float_of_field (POST request !! "pressure") = Return p ->
        POST request !! "temperature" = Some s -> float_of_str s = Raised e ->
        plain_text s = true ->
        failed (not_a_number s)).
Proof.
  cbv zeta. unfold handle_state_point, state_point_try.
  split; [|split; [|split]].
  - intros ->. run. split; reflexivity.
  - intros s e -> He _. rewrite (float_of_str_raises _ _ He) in He.
    run. unfold float_of_field. rewrite He. run. split; reflexivity.
  - intros p Hp ->. run. rewrite Hp. run. split; reflexivity.
  - intros p s e Hp -> He _. rewrite (float_of_str_raises _ _ He) in He.
    run. rewrite Hp. run. unfold float_of_field. rewrite He. run.
    split; reflexivity.
Qed.

Lemma state_point_except_world e w :
  exists msg,
    state_point_except e w =
    (Return tt, {| context := <["error" := VStr msg]> (context w);
                   engine_calls := engine_calls w; query_log := query_log w |}).
Proof.
  unfold state_point_except.
  destruct e; try destruct (contains _ _); eexists; reflexivity.
Qed.

(** The handler of a state-point run that raised. *)
Ltac handler_ran :=
  match goal with
  | |- context [state_point_except ?e ?w0] =>
      let msg := fresh "msg" in
      destruct (state_point_except_world e w0) as [msg ->]; run
  end.

Section StatePointMore.

Variables (request : HttpRequest) (w : world) (p_val t_val p_mpa : float).
Hypothesis H_inputs : state_point_inputs request p_val t_val.
Hypothesis H_mpa : pressure_to_mpa (POST request !! "p_unit") p_val = Some p_mpa.

Abbreviation p_unit := (POST request !! "p_unit").
Abbreviation t_unit := (POST request !! "t_unit").
Abbreviation t_k := (temperature_to_kelvin t_unit t_val).
Abbreviation w' := (snd (handle_state_point IAPWS97 request w)).

(** The run up to the first lookup. *)
Ltac to_first_lookup :=
  let H1 := fresh in let H2 := fresh in
  destruct H_inputs as [H1 H2];
  unfold handle_state_point, state_point_try, intermediate_step; run;
  rewrite H1, H2; run; rewrite H_mpa;
  cbv beta iota zeta delta [read_local]; run.

(** X15: when the lookup of the state point fails, it is the only lookup, no
    result is stored, and its exception decides the message: the range
    text for a NotImplementedError whose text contains out of bound in any
    case, Thermodynamic error and the text for another
    NotImplementedError, Input Error and the text for a ValueError, and
    the generic text otherwise. *)
Theorem state_point_lookup_failure_message e :
  IAPWS97 (IAPWS.PT p_mpa t_k) = Raised e ->
  engine_calls w' = engine_calls w ++ [IAPWS.PT p_mpa t_k]
  /\ context w' =
     <["error" :=
         VStr match e with
              | NotImplementedError m =>
                  if contains "out of bound" (lower m)
                  then "The provided temperature and pressure exceed the valid limits of the IAPWS-97 steam tables. Please enter physically realistic values."
                  else "Thermodynamic error: " +:+ m
              | ValueError m => "Input Error: " +:+ m
              | _ => "An unexpected calculation error occurred. Verify your inputs."
              end]> (context w).
Proof.
  intros He. destruct w as [ctx calls log]. to_first_lookup. rewrite He. run.
  unfold state_point_except.
  destruct e; try destruct (contains _ _); split; reflexivity.
Qed.

(** X16: when the engine's phase tag is none of Liquid, Gas and Two-phase, the
    evaluation still succeeds with its numeric results, but stores no state
    label and no quality. *)
Theorem state_point_unlabelled_phase steam :
  IAPWS97 (IAPWS.PT p_mpa t_k) = Return steam ->
  IAPWS.phase steam <> "Liquid" ->
  IAPWS.phase steam <> "Gas" ->
  IAPWS.phase steam <> "Two-phase" ->
  engine_calls w' = engine_calls w ++ [IAPWS.PT p_mpa t_k]
  /\ context w' !! "success" = Some (VBool true)
  /\ context w' !! "h" = Some (VFloat (round (IAPWS.h steam) 2))
  /\ context w' !! "state" = context w !! "state"
  /\ context w' !! "x" = context w !! "x"
  /\ context w' !! "error" = context w !! "error".
Proof.
  intros Hs HL HG HT. apply String.eqb_neq in HL, HG, HT.
  destruct w as [ctx calls log]. to_first_lookup. rewrite Hs. run.
  rewrite HL, HG, HT. run.
  rewrite !lookup_dict_update. repeat split.
Qed.

(** X17: when a two-phase state carries no x, or one of the four intermediate
    lookups fails, the context ends with both success (true) and an error
    message, keeps the label Wet Steam, and gets no intermediate data. *)
Theorem state_point_partial_failure steam :
  IAPWS97 (IAPWS.PT p_mpa t_k) = Return steam ->
  IAPWS.phase steam = "Two-phase" ->
  IAPWS.x steam = None
  \/ (exists ix e, In ix [0.2; 0.4; 0.6; 0.8]%float
                   /\ IAPWS97 (IAPWS.Px p_mpa ix) = Raised e) ->
  let w' := snd (handle_state_point IAPWS97 request w) in
  context w' !! "success" = Some (VBool true)
  /\ context w' !! "state" = Some (VStr "Wet Steam")
  /\ is_Some (context w' !! "error")
  /\ context w' !! "intermediate_data" = context w !! "intermediate_data".
Proof.
  intros Hs HT Hfail.
  destruct w as [ctx calls log]. to_first_lookup. rewrite Hs. run.
  rewrite HT. cbn [String.eqb Ascii.eqb Bool.eqb]. run.
  unfold getattr_x. destruct (IAPWS.x steam) as [q|] eqn:Hx; run.
  2:{ handler_ran. after_failure. }
  destruct Hfail as [|(ix & e & Hin & He)]; [discriminate|].
  cbv beta iota zeta delta [for_each]. run.
  step_engine IAPWS97; [|handler_ran; after_failure].
  step_engine IAPWS97; [|handler_ran; after_failure].
  step_engine IAPWS97; [|handler_ran; after_failure].
  step_engine IAPWS97; [|handler_ran; after_failure].
  exfalso. cbn [In] in Hin.
  destruct Hin as [<-|[<-|[<-|[<-|[]]]]]; congruence.
Qed.

(** X18: once the lookup of the state point has returned, the context holds
    success, the inputs and units as entered, h, s and v rounded to 2, 4
    and 5 places, and the plotted point (s, t_k - 273.15), whatever happens
    afterwards. *)
Theorem state_point_result_entries steam :
  IAPWS97 (IAPWS.PT p_mpa t_k) = Return steam ->
  context w' !! "success" = Some (VBool true)
  /\ context w' !! "p" = Some (VFloat p_val)
  /\ context w' !! "t" = Some (VFloat t_val)
  /\ context w' !! "p_unit" =
     Some match p_unit with Some u => VStr u | None => VNone end
  /\ context w' !! "t_unit" =
     Some match t_unit with Some u => VStr u | None => VNone end
  /\ context w' !! "h" = Some (VFloat (round (IAPWS.h steam) 2))
  /\ context w' !! "s" = Some (VFloat (round (IAPWS.s steam) 4))
  /\ context w' !! "v" = Some (VFloat (round (IAPWS.v steam) 5))
  /\ context w' !! "point_s" = Some (VFloat (IAPWS.s steam))
  /\ context w' !! "point_t" = Some (VFloat (t_k - 273.15)).
Proof.
  intros Hs.
  destruct w as [ctx calls log]. to_first_lookup. rewrite Hs. run.
  destruct (String.eqb (IAPWS.phase steam) "Liquid"); run; [after_failure|].
  destruct (String.eqb (IAPWS.phase steam) "Gas"); run; [after_failure|].
  destruct (String.eqb (IAPWS.phase steam) "Two-phase"); run; [|after_failure].
  unfold getattr_x. destruct (IAPWS.x steam) as [q|]; run.
  2:{ handler_ran. after_failure. }
  cbv beta iota zeta delta [for_each]. run.
  step_engine IAPWS97; [|handler_ran; after_failure].
  step_engine IAPWS97; [|handler_ran; after_failure].
  step_engine IAPWS97; [|handler_ran; after_failure].
  step_engine IAPWS97; [|handler_ran; after_failure].
  after_failure.
Qed.

End StatePointMore.

(** ** The saturation dome: order and size *)

Lemma dome_sample_cases t :
  dome_sample IAPWS97 t = None
  \/ exists pl pv, dome_sample IAPWS97 t = Some (pl, pv)
                   /\ point_y pl = Some (VInt t)
                   /\ point_y pv = Some (VInt t).
Proof.
  unfold dome_sample.
  destruct (resolved IAPWS97 (IAPWS.Tx _ 0)) as [sl|]; cbn; [|left; reflexivity].
  destruct (resolved IAPWS97 (IAPWS.Tx _ 1)) as [sv|]; cbn; [|left; reflexivity].
  right. eexists _, _. repeat split.
Qed.

Lemma dome_samples_temperatures (l : list Z) :
  exists ts,
    sublist ts l
    /\ map point_y (map fst (omap (dome_sample IAPWS97) l))
       = map (fun t => Some (VInt t)) ts
    /\ map point_y (map snd (omap (dome_sample IAPWS97) l))
       = map (fun t => Some (VInt t)) ts.
Proof.
  induction l as [|t l (ts & Hsub & Hl & Hv)].
  - exists []. repeat split. constructor.
  - cbn [omap list_omap].
    destruct (dome_sample_cases t) as [->|(pl & pv & -> & Hpl & Hpv)].
    + exists ts. split; [constructor; exact Hsub | split; assumption].
    + exists (t :: ts). split; [constructor; exact Hsub|].
      cbn [map fst snd]. rewrite Hpl, Hpv, Hl, Hv. split; reflexivity.
Qed.

Lemma dome_queries_count (l : list Z) :
  (length l <= length (concat (map (dome_queries IAPWS97) l)) <= 2 * length l)%nat.
Proof.
  induction l as [|t l IH]; [simpl; Lia.lia|].
  cbn [map concat length]. rewrite length_app.
  assert (1 <= length (dome_queries IAPWS97 t) <= 2)%nat.
  { unfold dome_queries. destruct (resolved IAPWS97 _); simpl; Lia.lia. }
  Lia.lia.
Qed.

(** X19: the two dome branches hold the same temperatures at the same
    positions: an ascending selection of the sweep 0, 10, ..., 370 followed
    by 373.946; each branch has between 1 and 39 points. *)
Theorem dome_branches_share_temperatures w :
  exists liquid_line vapor_line ts,
    fst (generate_saturation_dome IAPWS97 w) = Return (liquid_line, vapor_line)
    /\ sublist ts (range 0 374 10)
    /\ map point_y liquid_line =
       map (fun t => Some (VInt t)) ts ++ [Some (VFloat 373.946)]
    /\ map point_y vapor_line =
       map (fun t => Some (VInt t)) ts ++ [Some (VFloat 373.946)]
    /\ (1 <= length liquid_line <= 39)%nat.
Proof.
  destruct (dome_samples_temperatures (range 0 374 10)) as (ts & Hsub & Hl & Hv).
  eexists _, _, ts. rewrite dome_run. cbn [fst].
  split; [reflexivity|]. split; [exact Hsub|].
  rewrite !map_app, Hl, Hv. split; [reflexivity|]. split; [reflexivity|].
  apply (f_equal length) in Hl. rewrite !length_map in Hl.
  rewrite length_app, length_map, Hl. cbn [length].
  apply sublist_length in Hsub.
  change (length (range 0 374 10)) with 38%nat in Hsub. Lia.lia.
Qed.

(** X20: the sampler makes between 38 and 76 engine lookups, each at a sweep
    temperature plus 273.15 and quality 0 or 1. *)
Theorem dome_engine_calls_bounded w :
  exists calls,
    engine_calls (snd (generate_saturation_dome IAPWS97 w)) = engine_calls w ++ calls
    /\ (38 <= length calls <= 76)%nat
    /\ Forall (fun q => exists t, In t (range 0 374 10)
                        /\ (q = IAPWS.Tx (float_of_Z t + 273.15) 0
                            \/ q = IAPWS.Tx (float_of_Z t + 273.15) 1)) calls.
Proof.
  eexists. rewrite dome_run. cbn [snd engine_calls].
  split; [reflexivity|]. split.
  - pose proof (dome_queries_count (range 0 374 10)) as H.
    change (length (range 0 374 10)) with 38%nat in H. Lia.lia.
  - generalize (range 0 374 10). intros l.
    apply List.Forall_forall. intros q Hq.
    apply in_concat in Hq. destruct Hq as (qs & Hqs & Hq).
    apply in_map_iff in Hqs. destruct Hqs as (t & <- & Ht).
    exists t. split; [exact Ht|].
    unfold dome_queries in Hq. destruct (resolved IAPWS97 _); cbn [In] in Hq;
      intuition auto.
Qed.

(** ** How many lookups a handler makes *)

Lemma cycle_schedule_length a b c d e :
  (1 <= length (cycle_schedule IAPWS97 a b c d e) <= 6)%nat.
Proof.
  unfold cycle_schedule.
  repeat (destruct (resolved IAPWS97 _); cbn [length]; try Lia.lia).
Qed.

Lemma rankine_calls_bounded request w :
  exists calls,
    engine_calls (snd (handle_rankine_cycle IAPWS97 request w)) =
      engine_calls w ++ calls
    /\ (length calls <= 6)%nat.
Proof.
  destruct (rankine_inputs_or_raise request w)
    as [(p_low & p_high & t_high & pump_pct & turbine_pct & Hi)
       |(k & s & _ & _ & Hr)].
  2:{ exists []. unfold handle_rankine_cycle, try_except. rewrite Hr.
      rewrite (proj2 (rankine_except_sets_error _ _)), app_nil_r.
      split; [reflexivity | simpl; Lia.lia]. }
  destruct (p_high <=? p_low)%float eqn:Hp.
  { exists []. rewrite (proj1 (rankine_rejects IAPWS97 _ w _ _ _ _ _ Hi) Hp).
    cbn [engine_calls]. rewrite app_nil_r. split; [reflexivity | simpl; Lia.lia]. }
  destruct ((pump_pct / 100 <=? 0) || (turbine_pct / 100 <=? 0)
            || (1 <? pump_pct / 100) || (1 <? turbine_pct / 100))%float eqn:He.
  { exists []. rewrite (proj2 (rankine_rejects IAPWS97 _ w _ _ _ _ _ Hi) Hp He).
    cbn [engine_calls]. rewrite app_nil_r. split; [reflexivity | simpl; Lia.lia]. }
  eexists. rewrite (rankine_calls IAPWS97).
  rewrite (proj1 (rankine_try_run IAPWS97 _ w _ _ _ _ _ Hi (conj Hp He))).
  split; [reflexivity | apply cycle_schedule_length].
Qed.

Ltac uncounted :=
  exists []; split; [rewrite app_nil_r; reflexivity | cbn [length]; Lia.lia].

Ltac counted :=
  eexists; split; [rewrite <- ?app_assoc; reflexivity
                  | cbn [length app]; Lia.lia].

Lemma state_point_calls_bounded request w :
  exists calls,
    engine_calls (snd (handle_state_point IAPWS97 request w)) =
      engine_calls w ++ calls
    /\ (length calls <= 5)%nat.
Proof.
  destruct w as [ctx calls0 log].
  unfold handle_state_point, state_point_try, intermediate_step. run.
  destruct (float_of_field (POST request !! "pressure")) as [p|e]; run;
    [|handler_ran; uncounted].
  destruct (float_of_field (POST request !! "temperature")) as [t|e]; run;
    [|handler_ran; uncounted].
  destruct (pressure_to_mpa (POST request !! "p_unit") p) as [p_mpa|];
    cbv beta iota zeta delta [read_local]; run;
    [|handler_ran; uncounted].
  step_engine IAPWS97; [|handler_ran; counted].
  destruct (String.eqb (IAPWS.phase st) "Liquid"); run; [counted|].
  destruct (String.eqb (IAPWS.phase st) "Gas"); run; [counted|].
  destruct (String.eqb (IAPWS.phase st) "Two-phase"); run; [|counted].
  unfold getattr_x. destruct (IAPWS.x st) as [q|]; run;
    [|handler_ran; counted].
  cbv beta iota zeta delta [for_each]. run.
  step_engine IAPWS97; [|handler_ran; counted].
  step_engine IAPWS97; [|handler_ran; counted].
  step_engine IAPWS97; [|handler_ran; counted].
  step_engine IAPWS97; [|handler_ran; counted].
  counted.
Qed.

(** ** The view *)

(** X1: the view never raises. Whatever the request holds and whatever the
    engine returns or raises, [steam_calculator] returns a response that
    renders index.html with the context it has built. *)
Theorem view_always_renders request w :
  fst (steam_calculator IAPWS97 request w) =
  Return {| template := "index.html";
            data := context (snd (steam_calculator IAPWS97 request w)) |}.
Proof. rewrite view_run. reflexivity. Qed.

Lemma dome_world_lookup w k :
  k <> "liquid_line" -> k <> "vapor_line" -> context (dome_world IAPWS97 w) !! k = None.
Proof.
  intros H1 H2. unfold dome_world. cbn [context].
  rewrite !lookup_insert_ne by congruence. apply lookup_empty.
Qed.

(** X2: every response, for a GET or a POST, after a success or a failure,
    carries the two dome lines as sampled at the start of the request: no
    handler overwrites them. *)
Theorem response_has_dome_lines request w :
  let w' := snd (steam_calculator IAPWS97 request w) in
  let samples := omap (dome_sample IAPWS97) (range 0 374 10) in
  let critical := VDict [("x", VFloat 4.406); ("y", VFloat 373.946)] in
  context w' !! "liquid_line" = Some (VJson (VList (map fst samples ++ [critical])))
  /\ context w' !! "vapor_line" = Some (VJson (VList (map snd samples ++ [critical]))).
Proof.
  cbv zeta. rewrite view_run. cbn [snd]. unfold view_world.
  assert (Hd : context (dome_world IAPWS97 w) !! "liquid_line" =
               Some (VJson (VList (map fst (omap (dome_sample IAPWS97) (range 0 374 10))
                                   ++ [critical_point])))
               /\ context (dome_world IAPWS97 w) !! "vapor_line" =
                  Some (VJson (VList (map snd (omap (dome_sample IAPWS97) (range 0 374 10))
                                      ++ [critical_point])))).
  { unfold dome_world. cbn [context].
    rewrite lookup_insert_ne by discriminate.
    rewrite !lookup_insert_eq. split; reflexivity. }
  assert (Ha : forall m,
    context (with_active_mode m (dome_world IAPWS97 w)) !! "liquid_line" =
      context (dome_world IAPWS97 w) !! "liquid_line"
    /\ context (with_active_mode m (dome_world IAPWS97 w)) !! "vapor_line" =
       context (dome_world IAPWS97 w) !! "vapor_line").
  { intros m. unfold with_active_mode. cbn [context].
    rewrite !lookup_insert_ne by discriminate. split; reflexivity. }
  destruct (String.eqb (method request) "POST"); [|exact Hd].
  destruct (String.eqb _ "rankine_cycle").
  - rewrite !(writes_only_rankine request) by (unfold rankine_keys; cbn [In];
      intuition discriminate).
    rewrite (proj1 (Ha _)), (proj2 (Ha _)). exact Hd.
  - rewrite !(writes_only_state_point request) by (unfold state_point_keys; cbn [In];
      intuition discriminate).
    rewrite (proj1 (Ha _)), (proj2 (Ha _)). exact Hd.
Qed.

(** X3: a request whose method is not POST runs no handler: the context holds
    the two dome lines and nothing else, and the only engine lookups are
    those of the sweep. *)
Theorem get_request_renders_dome_only request w :
  method request <> "POST" ->
  let w' := snd (steam_calculator IAPWS97 request w) in
  let samples := omap (dome_sample IAPWS97) (range 0 374 10) in
  let critical := VDict [("x", VFloat 4.406); ("y", VFloat 373.946)] in
  context w' =
    <["vapor_line" := VJson (VList (map snd samples ++ [critical]))]>
      (<["liquid_line" := VJson (VList (map fst samples ++ [critical]))]> ∅)
  /\ engine_calls w' =
     engine_calls w ++ concat (map (dome_queries IAPWS97) (range 0 374 10)).
Proof.
  intros Hm. cbv zeta. rewrite view_run. cbn [snd]. unfold view_world.
  apply String.eqb_neq in Hm. rewrite Hm. split; reflexivity.
Qed.

(** X4: a POST with mode rankine_cycle runs the Rankine handler on the dome
    context with active_mode rankine; a POST with any other mode, or none,
    runs the state-point handler with active_mode state; the handler leaves
    active_mode as set. *)
Theorem post_dispatch request w :
  method request = "POST" ->
  let w' := snd (steam_calculator IAPWS97 request w) in
  (POST request !! "mode" = Some "rankine_cycle" ->
   w' = snd (handle_rankine_cycle IAPWS97 request
               (with_active_mode "rankine" (dome_world IAPWS97 w)))
   /\ context w' !! "active_mode" = Some (VStr "rankine"))
  /\ (POST request !! "mode" <> Some "rankine_cycle" ->
      w' = snd (handle_state_point IAPWS97 request
                  (with_active_mode "state" (dome_world IAPWS97 w)))
      /\ context w' !! "active_mode" = Some (VStr "state")).
Proof.
  intros Hm. cbv zeta. rewrite view_run. cbn [snd]. unfold view_world.
  rewrite Hm, String.eqb_refl.
  split.
  - intros ->. cbn [default from_option]. rewrite String.eqb_refl.
    split; [reflexivity|].
    rewrite (writes_only_rankine request) by (unfold rankine_keys; cbn [In];
      intuition discriminate).
    unfold with_active_mode. cbn [context]. apply lookup_insert_eq.
  - intros Hmode.
    assert (Hne : String.eqb (default "state_point" (POST request !! "mode"))
                    "rankine_cycle" = false).
    { revert Hmode. destruct (POST request !! "mode") as [m|]; [|reflexivity].
      intros Hmode. cbn [default from_option]. apply String.eqb_neq.
      unfold id. congruence. }
    rewrite Hne. split; [reflexivity|].
    rewrite (writes_only_state_point request) by (unfold state_point_keys; cbn [In];
      intuition discriminate).
    unfold with_active_mode. cbn [context]. apply lookup_insert_eq.
Qed.

(** X5: the response to a Rankine POST holds either success (true) and no
    error, or an error message and no success entry, never both. *)
Theorem rankine_response_success_xor_error request w :
  method request = "POST" ->
  POST request !! "mode" = Some "rankine_cycle" ->
  let w' := snd (steam_calculator IAPWS97 request w) in
  (context w' !! "success" = Some (VBool true) /\ context w' !! "error" = None)
  \/ (exists msg, context w' !! "error" = Some (VStr msg)
                  /\ context w' !! "success" = None).
Proof.
  intros Hm Hmode. cbv zeta. rewrite view_run. cbn [snd]. unfold view_world.
  rewrite Hm, Hmode. cbn [default from_option]. rewrite !String.eqb_refl.
  set (w1 := with_active_mode "rankine" (dome_world IAPWS97 w)).
  assert (H1 : context w1 !! "error" = None /\ context w1 !! "success" = None).
  { unfold w1, with_active_mode. cbn [context].
    rewrite !lookup_insert_ne by discriminate.
    split; apply dome_world_lookup; discriminate. }
  destruct (rankine_all_or_nothing_helper request w1) as [[msg Hc]|(Hs & _ & He)].
  - right. exists msg. rewrite Hc.
    rewrite lookup_insert_eq, lookup_insert_ne by discriminate. tauto.
  - left. rewrite Hs, He. tauto.
Qed.

(** X21: a request makes at least 38 and at most 82 engine lookups. *)
Theorem view_engine_calls_bounded request w :
  exists calls,
    engine_calls (snd (steam_calculator IAPWS97 request w)) = engine_calls w ++ calls
    /\ (38 <= length calls <= 82)%nat.
Proof.
  rewrite view_run. cbn [snd]. unfold view_world.
  pose proof (dome_queries_count (range 0 374 10)) as Hd.
  change (length (range 0 374 10)) with 38%nat in Hd.
  destruct (String.eqb (method request) "POST").
  - destruct (String.eqb _ "rankine_cycle").
    + destruct (rankine_calls_bounded request
                  (with_active_mode "rankine" (dome_world IAPWS97 w))) as (calls & -> & Hc).
      unfold with_active_mode, dome_world. cbn [engine_calls].
      eexists. rewrite <- app_assoc. split; [reflexivity|].
      rewrite length_app. Lia.lia.
    + destruct (state_point_calls_bounded request
                  (with_active_mode "state" (dome_world IAPWS97 w))) as (calls & -> & Hc).
      unfold with_active_mode, dome_world. cbn [engine_calls].
      eexists. rewrite <- app_assoc. split; [reflexivity|].
      rewrite length_app. Lia.lia.
  - unfold dome_world. cbn [engine_calls]. eexists. split; [reflexivity|]. Lia.lia.
Qed.

(** X22: the Rankine handler changes no context entry outside the nineteen
    keys of [rankine_keys], and the state-point handler none outside the
    fourteen keys of [state_point_keys]. *)
Theorem handlers_write_listed_keys request w k :
  (~ In k rankine_keys ->
   context (snd (handle_rankine_cycle IAPWS97 request w)) !! k = context w !! k)
  /\ (~ In k state_point_keys ->
      context (snd (handle_state_point IAPWS97 request w)) !! k = context w !! k).
Proof.
  split; intros Hk.
  - apply writes_only_rankine, Hk.
  - apply writes_only_state_point, Hk.
Qed.

End MoreProperties.

(** ** Concrete runs for the further properties *)

(** A GET request with the stand-in engine. *)
Lemma get_request_renders_dome_only_witness :
  let w' := snd (steam_calculator demo_engine get_request empty_world) in
  method get_request <> "POST"
  /\ context w' = context (dome_world demo_engine empty_world)
  /\ length (engine_calls w') = 76%nat.
Proof.
  cbv zeta.
  assert (Hm : method get_request <> "POST") by (vm_compute; discriminate).
  pose proof (get_request_renders_dome_only demo_engine get_request empty_world Hm)
    as [Hc He].
  split; [exact Hm|]. split; [exact Hc|].
  rewrite He. vm_compute. reflexivity.
Defined.

(** A POST whose mode is not one the view names goes to the state-point
    handler. *)
Lemma post_dispatch_witness :
  let request :=
    post [("mode", "mollier"); ("pressure", "1"); ("temperature", "400");
          ("p_unit", "bar"); ("t_unit", "k")] in
  let w' := snd (steam_calculator demo_engine request empty_world) in
  method request = "POST"
  /\ POST request !! "mode" <> Some "rankine_cycle"
  /\ w' = snd (handle_state_point demo_engine request
                 (with_active_mode "state" (dome_world demo_engine empty_world)))
  /\ context w' !! "active_mode" = Some (VStr "state").
Proof.
  cbv zeta.
  set (request := post [("mode", "mollier"); ("pressure", "1");
                        ("temperature", "400"); ("p_unit", "bar"); ("t_unit", "k")]).
  assert (Hm : method request = "POST") by reflexivity.
  assert (Hmode : POST request !! "mode" <> Some "rankine_cycle")
    by (vm_compute; discriminate).
  exact (conj Hm (conj Hmode
    (proj2 (post_dispatch demo_engine request empty_world Hm) Hmode))).
Defined.

Lemma rankine_response_success_xor_error_witness :
  let request := rankine_request "0.05" "100" "450" "85" "85" in
  let w' := snd (steam_calculator demo_engine request empty_world) in
  method request = "POST"
  /\ POST request !! "mode" = Some "rankine_cycle"
  /\ ((context w' !! "success" = Some (VBool true) /\ context w' !! "error" = None)
      \/ (exists msg, context w' !! "error" = Some (VStr msg)
                      /\ context w' !! "success" = None)).
Proof.
  cbv zeta.
  set (request := rankine_request "0.05" "100" "450" "85" "85").
  assert (Hm : method request = "POST") by reflexivity.
  assert (Hmode : POST request !! "mode" = Some "rankine_cycle")
    by (vm_compute; reflexivity).
  exact (conj Hm (conj Hmode
    (rankine_response_success_xor_error demo_engine request empty_world Hm Hmode))).
Defined.

(** A boiler pressure that is not a number. *)
Lemma rankine_non_numeric_field_witness :
  let request := rankine_request "0.05" "ten" "450" "85" "85" in
  let w' := snd (handle_rankine_cycle demo_engine request empty_world) in
  In "p_boiler" ["p_cond"; "p_boiler"; "t_boiler"; "pump_eff"; "turbine_eff"]
  /\ POST request !! "p_boiler" = Some "ten"
  /\ float_of_str "ten" =
     Raised (ValueError "could not convert string to float: 'ten'")
  /\ plain_fields request ["p_cond"; "p_boiler"; "t_boiler"; "pump_eff"; "turbine_eff"]
  /\ engine_calls w' = engine_calls empty_world
  /\ exists k' s',
      In k' ["p_cond"; "p_boiler"; "t_boiler"; "pump_eff"; "turbine_eff"]
      /\ POST request !! k' = Some s'
      /\ context w' =
         <["error" := VStr ("could not convert string to float: '" +:+ s' +:+ "'")]>
           (context empty_world).
Proof.
  cbv zeta.
  set (request := rankine_request "0.05" "ten" "450" "85" "85").
  assert (Hk : In "p_boiler"
                 ["p_cond"; "p_boiler"; "t_boiler"; "pump_eff"; "turbine_eff"])
    by (right; left; reflexivity).
  assert (Hs : POST request !! "p_boiler" = Some "ten") by (vm_compute; reflexivity).
  assert (He : float_of_str "ten" =
               Raised (ValueError "could not convert string to float: 'ten'"))
    by (vm_compute; reflexivity).
  assert (Hp : plain_fields request
                 ["p_cond"; "p_boiler"; "t_boiler"; "pump_eff"; "turbine_eff"]).
  { intros k s Hin Hks. cbn [In] in Hin.
    destruct Hin as [<-|[<-|[<-|[<-|[<-|[]]]]]];
      vm_compute in Hks; injection Hks as <-; reflexivity. }
  exact (conj Hk (conj Hs (conj He (conj Hp
    (rankine_non_numeric_field demo_engine request empty_world _ _ _ Hk Hs He Hp))))).
Defined.

(** The boiler lookup at 450 degrees Celsius is out of range for the bounded
    engine. *)
Lemma rankine_lookup_failure_message_witness :
  let request := rankine_request "0.05" "100" "450" "85" "85" in
  let w' := snd (handle_rankine_cycle bounded_engine request empty_world) in
  rankine_inputs request 0.05 100 450 85 85
  /\ cycle_states bounded_engine (0.05 / 10) (100 / 10) (450 + 273.15)
       (85 / 100) (85 / 100) = None
  /\ length (engine_calls w') = 4%nat
  /\ context w' =
     <["error" := VStr "The provided parameters exceed the valid limits of the IAPWS-97 formulations. Please verify that your Boiler Temperature isn't impossibly high or low."]>
       (context empty_world).
Proof.
  cbv zeta.
  set (request := rankine_request "0.05" "100" "450" "85" "85").
  assert (Hi : rankine_inputs request 0.05 100 450 85 85)
    by (vm_compute; repeat split).
  assert (Hp : (100 <=? 0.05)%float = false) by (vm_compute; reflexivity).
  assert (He : ((85 / 100 <=? 0) || (85 / 100 <=? 0)
                || (1 <? 85 / 100) || (1 <? 85 / 100))%float = false)
    by (vm_compute; reflexivity).
  assert (Hn : cycle_states bounded_engine (0.05 / 10) (100 / 10) (450 + 273.15)
                 (85 / 100) (85 / 100) = None) by (vm_compute; reflexivity).
  destruct (rankine_lookup_failure_message bounded_engine request empty_world
              _ _ _ _ _ Hi Hp He Hn) as (q & e & Hq & HE & Hcalls & Hctx).
  split; [exact Hi|]. split; [exact Hn|].
  split; [vm_compute; reflexivity|].
  vm_compute in Hq. injection Hq as <-.
  vm_compute in HE. injection HE as <-.
  exact Hctx.
Defined.

(** At 50 degrees Celsius the bare engine resolves State 3 as a Liquid state
    without x. *)
Lemma rankine_late_failure_witness :
  let request := rankine_request "0.05" "100" "50" "85" "85" in
  let w' := snd (handle_rankine_cycle bare_engine request empty_world) in
  rankine_inputs request 0.05 100 50 85 85
  /\ exists c,
      cycle_states bare_engine (0.05 / 10) (100 / 10) (50 + 273.15)
        (85 / 100) (85 / 100) = Some c
      /\ IAPWS.phase (state3 c) <> "Gas"
      /\ IAPWS.x (state3 c) = None
      /\ length (engine_calls w') = (length (engine_calls empty_world) + 6)%nat
      /\ context w' =
         <["error" :=
             VStr "An unexpected error occurred. Please ensure all inputs are valid numbers."]>
           (context empty_world).
Proof.
  cbv zeta.
  set (request := rankine_request "0.05" "100" "50" "85" "85").
  assert (Hi : rankine_inputs request 0.05 100 50 85 85)
    by (vm_compute; repeat split).
  assert (Hp : (100 <=? 0.05)%float = false) by (vm_compute; reflexivity).
  assert (He : ((85 / 100 <=? 0) || (85 / 100 <=? 0)
                || (1 <? 85 / 100) || (1 <? 85 / 100))%float = false)
    by (vm_compute; reflexivity).
  split; [exact Hi|].
  destruct (cycle_states bare_engine (0.05 / 10) (100 / 10) (50 + 273.15)
              (85 / 100) (85 / 100)) as [c|] eqn:Hc; [|vm_compute in Hc; discriminate].
  exists c.
  assert (Hg : IAPWS.phase (state3 c) <> "Gas").
  { vm_compute in Hc. injection Hc as <-. vm_compute. discriminate. }
  assert (Hx : IAPWS.x (state3 c) = None).
  { vm_compute in Hc. injection Hc as <-. reflexivity. }
  split; [reflexivity|]. split; [exact Hg|]. split; [exact Hx|].
  refine (rankine_late_failure bare_engine request empty_world
            _ _ _ _ _ Hi c Hp He _ (or_intror (conj Hg Hx))).
  exact Hc.
Defined.

Lemma rankine_derived_quantities_witness :
  let request := rankine_request "0.05" "100" "450" "85" "85" in
  let w' := snd (handle_rankine_cycle demo_engine request empty_world) in
  rankine_inputs request 0.05 100 450 85 85
  /\ no_error w'
  /\ exists c,
      cycle_states demo_engine (0.05 / 10) (100 / 10) (450 + 273.15)
        (85 / 100) (85 / 100) = Some c
      /\ let h1 := IAPWS.h (state1 c) in
         let h2 := IAPWS.h (state2 c) in
         let h3 := IAPWS.h (state3 c) in
         let h4 := IAPWS.h (state4 c) in
         context w' !! "w_pump" = Some (VFloat (round (h2 - h1) 2))
         /\ context w' !! "q_in" = Some (VFloat (round (h3 - h2) 2))
         /\ context w' !! "w_turbine" = Some (VFloat (round (h3 - h4) 2))
         /\ context w' !! "w_net" = Some (VFloat (round (h3 - h4 - (h2 - h1)) 2))
         /\ ((450 + 273.15) =? 0)%float = false
         /\ context w' !! "carnot_eff" =
            Some (VFloat (round ((1 - IAPWS.T (state1 c) / (450 + 273.15)) * 100) 2)).
Proof.
  cbv zeta.
  assert (Hi : rankine_inputs (rankine_request "0.05" "100" "450" "85" "85")
                 0.05 100 450 85 85) by (vm_compute; repeat split).
  assert (Hok : no_error (snd (handle_rankine_cycle demo_engine
                  (rankine_request "0.05" "100" "450" "85" "85") empty_world)))
    by (vm_compute; reflexivity).
  exact (conj Hi (conj Hok
    (rankine_derived_quantities demo_engine _ empty_world _ _ _ _ _ Hi Hok))).
Defined.

Lemma rankine_cycle_points_closed_witness :
  let request := rankine_request "0.05" "100" "450" "85" "85" in
  let w' := snd (handle_rankine_cycle demo_engine request empty_world) in
  rankine_inputs request 0.05 100 450 85 85
  /\ no_error w'
  /\ exists c,
      cycle_states demo_engine (0.05 / 10) (100 / 10) (450 + 273.15)
        (85 / 100) (85 / 100) = Some c
      /\ let pt (st : IAPWS.state) (label : string) :=
           VDict [("x", VFloat (IAPWS.s st));
                  ("y", VFloat (IAPWS.T st - 273.15));
                  ("label", VStr label)] in
         context w' !! "cycle_points" =
         Some (VJson (VList [pt (state1 c) "State 1"; pt (state2 c) "State 2";
                             pt (state3 c) "State 3"; pt (state4 c) "State 4";
                             pt (state1 c) "State 1"])).
Proof.
  cbv zeta.
  assert (Hi : rankine_inputs (rankine_request "0.05" "100" "450" "85" "85")
                 0.05 100 450 85 85) by (vm_compute; repeat split).
  assert (Hok : no_error (snd (handle_rankine_cycle demo_engine
                  (rankine_request "0.05" "100" "450" "85" "85") empty_world)))
    by (vm_compute; reflexivity).
  exact (conj Hi (conj Hok
    (rankine_cycle_points_closed demo_engine _ empty_world _ _ _ _ _ Hi Hok))).
Defined.

Lemma rankine_state_rows_witness :
  let request := rankine_request "0.05" "100" "450" "85" "85" in
  let w' := snd (handle_rankine_cycle demo_engine request empty_world) in
  rankine_inputs request 0.05 100 450 85 85
  /\ no_error w'
  /\ exists c row1 row2 row3 row4,
      cycle_states demo_engine (0.05 / 10) (100 / 10) (450 + 273.15)
        (85 / 100) (85 / 100) = Some c
      /\ context w' !! "state1" = Some (VDict row1)
      /\ context w' !! "state2" = Some (VDict row2)
      /\ context w' !! "state3" = Some (VDict row3)
      /\ context w' !! "state4" = Some (VDict row4)
      /\ dict_get "x" row1 = Some (VStr "0 (sat. liquid)")
      /\ dict_get "phase" row1 = Some (VStr "Saturated Liquid")
      /\ Forall2
           (fun row st =>
              dict_get "p" row = Some (VFloat (round (IAPWS.P st * 10) 3))
              /\ dict_get "T" row = Some (VFloat (round (IAPWS.T st - 273.15) 2))
              /\ dict_get "h" row = Some (VFloat (round (IAPWS.h st) 2))
              /\ dict_get "s" row = Some (VFloat (round (IAPWS.s st) 4)))
           [row1; row2; row3; row4]
           [state1 c; state2 c; state3 c; state4 c].
Proof.
  cbv zeta.
  assert (Hi : rankine_inputs (rankine_request "0.05" "100" "450" "85" "85")
                 0.05 100 450 85 85) by (vm_compute; repeat split).
  assert (Hok : no_error (snd (handle_rankine_cycle demo_engine
                  (rankine_request "0.05" "100" "450" "85" "85") empty_world)))
    by (vm_compute; reflexivity).
  exact (conj Hi (conj Hok
    (rankine_state_rows demo_engine _ empty_world _ _ _ _ _ Hi Hok))).
Defined.

(** A pump efficiency entered as 57 is echoed as 56.99999999999999. *)
Lemma rankine_echoes_inputs_witness :
  let request := rankine_request "0.05" "100" "450" "57" "85" in
  let w' := snd (handle_rankine_cycle demo_engine request empty_world) in
  rankine_inputs request 0.05 100 450 57 85
  /\ no_error w'
  /\ (57 / 100 * 100 =? 57)%float = false
  /\ context w' !! "p_low" = Some (VFloat 0.05)
  /\ context w' !! "p_high" = Some (VFloat 100)
  /\ context w' !! "t_high" = Some (VFloat 450)
  /\ context w' !! "pump_eff" = Some (VFloat (57 / 100 * 100))
  /\ context w' !! "turbine_eff" = Some (VFloat (85 / 100 * 100)).
Proof.
  cbv zeta.
  assert (Hi : rankine_inputs (rankine_request "0.05" "100" "450" "57" "85")
                 0.05 100 450 57 85) by (vm_compute; repeat split).
  assert (Hok : no_error (snd (handle_rankine_cycle demo_engine
                  (rankine_request "0.05" "100" "450" "57" "85") empty_world)))
    by (vm_compute; reflexivity).
  assert (Hne : (57 / 100 * 100 =? 57)%float = false) by (vm_compute; reflexivity).
  exact (conj Hi (conj Hok (conj Hne
    (rankine_echoes_inputs demo_engine _ empty_world _ _ _ _ _ Hi Hok)))).
Defined.

(** A state point at 700 K is out of range for the bounded engine. *)
Lemma state_point_lookup_failure_message_witness :
  let request := state_point_request "1" "700" "bar" "k" in
  let w' := snd (handle_state_point bounded_engine request empty_world) in
  state_point_inputs request 1 700
  /\ pressure_to_mpa (POST request !! "p_unit") 1 = Some (1 / 10)%float
  /\ bounded_engine (IAPWS.PT (1 / 10) 700) =
     Raised (NotImplementedError "Incoming out of bound")
  /\ engine_calls w' = engine_calls empty_world ++ [IAPWS.PT (1 / 10) 700]
  /\ context w' =
     <["error" := VStr "The provided temperature and pressure exceed the valid limits of the IAPWS-97 steam tables. Please enter physically realistic values."]>
       (context empty_world).
Proof.
  cbv zeta.
  set (request := state_point_request "1" "700" "bar" "k").
  assert (Hi : state_point_inputs request 1 700) by (vm_compute; repeat split).
  assert (Hp : pressure_to_mpa (POST request !! "p_unit") 1 = Some (1 / 10)%float)
    by (vm_compute; reflexivity).
  assert (He : bounded_engine
                 (IAPWS.PT (1 / 10)
                    (temperature_to_kelvin (POST request !! "t_unit") 700)) =
               Raised (NotImplementedError "Incoming out of bound"))
    by (vm_compute; reflexivity).
  exact (conj Hi (conj Hp (conj He
    (state_point_lookup_failure_message bounded_engine request empty_world
       _ _ _ Hi Hp _ He)))).
Defined.

Lemma state_point_unlabelled_phase_witness :
  let request := state_point_request "250" "700" "bar" "k" in
  let w' := snd (handle_state_point supercritical_engine request empty_world) in
  state_point_inputs request 250 700
  /\ pressure_to_mpa (POST request !! "p_unit") 250 = Some (250 / 10)%float
  /\ engine_calls w' = engine_calls empty_world ++ [IAPWS.PT (250 / 10) 700]
  /\ context w' !! "success" = Some (VBool true)
  /\ context w' !! "h" = Some (VFloat (round 2000 2))
  /\ context w' !! "state" = context empty_world !! "state"
  /\ context w' !! "x" = context empty_world !! "x"
  /\ context w' !! "error" = context empty_world !! "error".
Proof.
  cbv zeta.
  set (request := state_point_request "250" "700" "bar" "k").
  assert (Hi : state_point_inputs request 250 700) by (vm_compute; repeat split).
  assert (Hp : pressure_to_mpa (POST request !! "p_unit") 250 = Some (250 / 10)%float)
    by (vm_compute; reflexivity).
  refine (conj Hi (conj Hp
    (state_point_unlabelled_phase supercritical_engine request empty_world
       _ _ _ Hi Hp _ eq_refl _ _ _))); vm_compute; discriminate.
Defined.

(** The third intermediate lookup fails. *)
Lemma state_point_partial_failure_witness :
  let request := state_point_request "1" "400" "bar" "k" in
  let w' := snd (handle_state_point flaky_engine request empty_world) in
  state_point_inputs request 1 400
  /\ pressure_to_mpa (POST request !! "p_unit") 1 = Some (1 / 10)%float
  /\ flaky_engine (IAPWS.Px (1 / 10) 0.6) = Raised (Exception "no convergence")
  /\ context w' !! "success" = Some (VBool true)
  /\ context w' !! "state" = Some (VStr "Wet Steam")
  /\ is_Some (context w' !! "error")
  /\ context w' !! "intermediate_data" = context empty_world !! "intermediate_data".
Proof.
  cbv zeta.
  set (request := state_point_request "1" "400" "bar" "k").
  assert (Hi : state_point_inputs request 1 400) by (vm_compute; repeat split).
  assert (Hp : pressure_to_mpa (POST request !! "p_unit") 1 = Some (1 / 10)%float)
    by (vm_compute; reflexivity).
  assert (He : flaky_engine (IAPWS.Px (1 / 10) 0.6) =
               Raised (Exception "no convergence")) by (vm_compute; reflexivity).
  refine (conj Hi (conj Hp (conj He
    (state_point_partial_failure flaky_engine request empty_world
       _ _ _ Hi Hp _ eq_refl _ _)))).
  - vm_compute. reflexivity.
  - right. exists 0.6%float, (Exception "no convergence").
    split; [right; right; left; reflexivity | exact He].
Defined.

Lemma state_point_result_entries_witness :
  let request := state_point_request "1" "400" "bar" "k" in
  let w' := snd (handle_state_point demo_engine request empty_world) in
  state_point_inputs request 1 400
  /\ pressure_to_mpa (POST request !! "p_unit") 1 = Some (1 / 10)%float
  /\ context w' !! "success" = Some (VBool true)
  /\ context w' !! "p" = Some (VFloat 1)
  /\ context w' !! "t" = Some (VFloat 400)
  /\ context w' !! "p_unit" = Some (VStr "bar")
  /\ context w' !! "t_unit" = Some (VStr "k")
  /\ context w' !! "h" = Some (VFloat (round 1200 2))
  /\ context w' !! "s" = Some (VFloat (round 3 4))
  /\ context w' !! "v" = Some (VFloat (round 0.05 5))
  /\ context w' !! "point_s" = Some (VFloat 3)
  /\ context w' !! "point_t" = Some (VFloat (400 - 273.15)).
Proof.
  cbv zeta.
  set (request := state_point_request "1" "400" "bar" "k").
  assert (Hi : state_point_inputs request 1 400) by (vm_compute; repeat split).
  assert (Hp : pressure_to_mpa (POST request !! "p_unit") 1 = Some (1 / 10)%float)
    by (vm_compute; reflexivity).
  exact (conj Hi (conj Hp
    (state_point_result_entries demo_engine request empty_world
       _ _ _ Hi Hp _ eq_refl))).
Defined.

(** A pressure field that is not a number. *)
Lemma state_point_bad_input_witness :
  let request := state_point_request "abc" "400" "bar" "k" in
  let w' := snd (handle_state_point demo_engine request empty_world) in
  POST request !! "pressure" = Some "abc"
  /\ float_of_str "abc" =
     Raised (ValueError "could not convert string to float: 'abc'")
  /\ plain_text "abc" = true
  /\ context w' =
     <["error" := VStr "Input Error: could not convert string to float: 'abc'"]>
       (context empty_world)
  /\ engine_calls w' = engine_calls empty_world.
Proof.
  cbv zeta.
  set (request := state_point_request "abc" "400" "bar" "k").
  assert (Hs : POST request !! "pressure" = Some "abc") by (vm_compute; reflexivity).
  assert (He : float_of_str "abc" =
               Raised (ValueError "could not convert string to float: 'abc'"))
    by (vm_compute; reflexivity).
  exact (conj Hs (conj He (conj eq_refl
    (proj1 (proj2 (state_point_bad_input demo_engine request empty_world))
       _ _ Hs He eq_refl)))).
Defined.

(** The dome lines survive a Rankine run and a state-point run. *)
Lemma handlers_write_listed_keys_witness :
  let w := dome_world demo_engine empty_world in
  ~ In "liquid_line" rankine_keys
  /\ ~ In "liquid_line" state_point_keys
  /\ context (snd (handle_rankine_cycle demo_engine
                     (rankine_request "0.05" "100" "450" "85" "85") w))
       !! "liquid_line" = context w !! "liquid_line"
  /\ context (snd (handle_state_point demo_engine
                     (state_point_request "1" "400" "bar" "k") w))
       !! "liquid_line" = context w !! "liquid_line".
Proof.
  cbv zeta.
  assert (Hr : ~ In "liquid_line" rankine_keys)
    by (intros H; cbn in H; repeat destruct H as [H|H]; discriminate || exact H).
  assert (Hs : ~ In "liquid_line" state_point_keys)
    by (intros H; cbn in H; repeat destruct H as [H|H]; discriminate || exact H).
  exact (conj Hr (conj Hs (conj
    (proj1 (handlers_write_listed_keys demo_engine
              (rankine_request "0.05" "100" "450" "85" "85") _ "liquid_line") Hr)
    (proj2 (handlers_write_listed_keys demo_engine
              (state_point_request "1" "400" "bar" "k") _ "liquid_line") Hs)))).
Defined.
